(** * A memoized selector library (reselect), embedded in Rocq

    The development follows [src/index.js]:
    - [defaultEqualityCheck], [areArgumentsShallowlyEqual]: the comparator;
    - [defaultMemoize]: the single-slot memoizer;
    - [getDependencies], [createSelectorCreator], [createSelector]: the composer;
    - [createStructuredSelector]: the object-shaped builder.

    JavaScript values are first-order data.  Mutable closure variables
    ([lastArgs], [lastResult], [recomputations]) are threaded explicitly as
    state; a call either completes normally with a value or abruptly with a
    thrown error.

    What the embedding takes for granted:
    - an equality comparator is a total predicate without effects;
    - the functions of the caller act on a world of their own and do not call
      back into the selector that is running them;
    - a function has no property of its own, so that [f.apply] is the
      built-in [Function.prototype.apply];
    - objects are plain: own enumerable data properties with string keys;
      what they inherit is what [{}] inherits, and the prototype an
      assignment to [__proto__] may install is not recorded; arrays are
      dense. *)

From Stdlib Require Import List String Ascii Bool Arith ZArith PArith Lia Floats.
From Stdlib Require Import NArith DecimalString DecimalNat DecimalN.
Import ListNotations.

Local Open Scope string_scope.
Local Open Scope list_scope.
Local Open Scope nat_scope.

(** ** JavaScript values *)

Module JS.

(** Function values.  A function is known by its identity; what calling it
    does is given by the environment ([userFunction] below) for functions of
    the caller, and by this development for the one closure the library
    itself hands out as a value: the combiner of a structured selector,
    which captures [objectKeys]. *)
Inductive funref : Type :=
| UserFunction (id : positive)
| StructuredCombiner (id : positive) (objectKeys : list string).

Definition funref_identity (f : funref) : positive :=
  match f with
  | UserFunction id => id
  | StructuredCombiner id _ => id
  end.

(** Numbers are IEEE 754 doubles.  Arrays and objects carry their reference
    identity next to their current contents; the properties of an object are
    listed in the order [Object.keys] enumerates them. *)
#[local] Set Warnings "-register-all".
Inductive value : Type :=
| VUndefined
| VNull
| VBoolean (b : bool)
| VNumber (x : float)
| VString (s : string)
| VSymbol (id : positive)
| VBigInt (z : Z)
| VFunction (f : funref)
| VArray (id : positive) (elements : list value)
| VObject (id : positive) (properties : list (string * value)).

(** The [typeof] operator. *)
Definition typeof (v : value) : string :=
  match v with
  | VUndefined => "undefined"
  | VNull => "object"
  | VBoolean _ => "boolean"
  | VNumber _ => "number"
  | VString _ => "string"
  | VSymbol _ => "symbol"
  | VBigInt _ => "bigint"
  | VFunction _ => "function"
  | VArray _ _ => "object"
  | VObject _ _ => "object"
  end.

(** The [===] operator: primitives by value (IEEE equality on numbers, so
    [NaN] differs from itself and [+0] equals [-0]); functions, arrays and
    objects by reference. *)
Definition strictEquals (a b : value) : bool :=
  match a, b with
  | VUndefined, VUndefined => true
  | VNull, VNull => true
  | VBoolean x, VBoolean y => Bool.eqb x y
  | VNumber x, VNumber y => PrimFloat.eqb x y
  | VString x, VString y => String.eqb x y
  | VSymbol x, VSymbol y => Pos.eqb x y
  | VBigInt x, VBigInt y => Z.eqb x y
  | VFunction f, VFunction g => Pos.eqb (funref_identity f) (funref_identity g)
  | VArray i _, VArray j _ => Pos.eqb i j
  | VObject i _, VObject j _ => Pos.eqb i j
  | _, _ => false
  end.

(** What can be thrown: an [Error] built by the library with its message, a
    [TypeError] of the engine, or any value raised by a function of the
    caller. *)
Inductive thrown : Type :=
| Error (message : string)
| TypeError
| Raised (v : value).

(** How an evaluation ends. *)
Inductive completion (A : Type) : Type :=
| Normal (a : A)
| Abrupt (e : thrown).

Arguments Normal {A} a.
Arguments Abrupt {A} e.

(** [xs[i]]: reading past the end yields [undefined]. *)
Definition item (xs : list value) (i : nat) : value := nth i xs VUndefined.

(** [Array.prototype.join] on an array of strings. *)
Fixpoint join (sep : string) (xs : list string) : string :=
  match xs with
  | [] => ""
  | [x] => x
  | x :: rest => String.append x (String.append sep (join sep rest))
  end.

End JS.

Import JS.

(** ** The comparator (index.js, lines 2-39) *)

(** An equality comparator is used only through [!equalityCheck(a, b)]; it is
    embedded as the predicate that says whether its result is truthy. *)
Definition comparator : Type := value -> value -> bool.

Definition defaultEqualityCheck : comparator :=
  fun a b => strictEquals a b.

(** The [for] loop of [areArgumentsShallowlyEqual]: [i] is the loop index and
    [remaining] is [length - i]. *)
Fixpoint shallowLoop (equalityCheck : comparator) (prev next : list value)
    (remaining i : nat) : bool :=
  match remaining with
  | O => true
  | S remaining' =>
      if negb (equalityCheck (item prev i) (item next i)) then false
      else shallowLoop equalityCheck prev next remaining' (S i)
  end.

(** [prev] and [next] are argument lists or [null] ([None]). *)
Definition areArgumentsShallowlyEqual (equalityCheck : comparator)
    (prev next : option (list value)) : bool :=
  match prev, next with
  | Some p, Some n =>
      if negb (List.length p =? List.length n) then false
      else shallowLoop equalityCheck p n (List.length p) 0
  | _, _ => false
  end.

(** ** The single-slot memoizer (index.js, lines 49-69) *)

(** A JavaScript function, as the library sees one: called with an argument
    list, it completes with a value or throws, and may change a state [S]
    (for a function of the caller, the world; for a closure of the library,
    also the variables it captured). *)
Definition jsfun (S : Type) : Type := list value -> S -> completion value * S.

(** The two variables a memoized function captures. *)
Record slot : Type := mkSlot {
  lastArgs : option (list value);
  lastResult : value
}.

(** [let lastArgs = null; let lastResult = null] *)
Definition emptySlot : slot := {| lastArgs := None; lastResult := VNull |}.

(** The function [defaultMemoize(func, equalityCheck)] returns.  When [func]
    throws, the assignment to [lastResult] does not happen and the one to
    [lastArgs] is not reached. *)
Definition defaultMemoize {S : Type} (func : jsfun S) (equalityCheck : comparator)
  : jsfun (slot * S) :=
  fun arguments st =>
    let (cache, s) := st in
    if negb (areArgumentsShallowlyEqual equalityCheck (lastArgs cache) (Some arguments))
    then
      match func arguments s with
      | (Normal result, s') =>
          (Normal result, ({| lastArgs := Some arguments; lastResult := result |}, s'))
      | (Abrupt e, s') => (Abrupt e, (cache, s'))
      end
    else
      (Normal (lastResult cache),
       ({| lastArgs := Some arguments; lastResult := lastResult cache |}, s)).

(** A memoization strategy, the first argument of [createSelectorCreator]
    with its options already supplied: it wraps a function into one that
    owns some private state of its own. *)
Record memoizer : Type := {
  memo_state : Type;
  memo_fresh : memo_state;
  memo_wrap : forall S : Type, jsfun S -> jsfun (memo_state * S)
}.

(** [defaultMemoize] as a strategy, with [equalityCheck] as its option. *)
Definition defaultMemoizer (equalityCheck : comparator) : memoizer :=
  {| memo_state := slot;
     memo_fresh := emptySlot;
     memo_wrap := fun S func => defaultMemoize func equalityCheck |}.

(** A function that counts its own invocations before doing its work: the
    shape of [function () { recomputations++; return resultFunc.apply(null,
    arguments) }], and of any instrumented function of a caller. *)
Definition counting {S : Type} (func : jsfun S) : jsfun (nat * S) :=
  fun arguments st =>
    let (count, s) := st in
    let (r, s') := func arguments s in
    (r, (Datatypes.S count, s')).

(** Calls made one after the other by a caller; a throw ends the sequence. *)
Fixpoint callInSequence {S : Type} (f : jsfun S) (argss : list (list value)) (s : S)
  : completion (list value) * S :=
  match argss with
  | [] => (Normal [], s)
  | arguments :: rest =>
      match f arguments s with
      | (Normal v, s') =>
          match callInSequence f rest s' with
          | (Normal vs, s'') => (Normal (v :: vs), s'')
          | (Abrupt e, s'') => (Abrupt e, s'')
          end
      | (Abrupt e, s') => (Abrupt e, s')
      end
  end.

(** Calls made one after the other by a caller that catches what is thrown
    and goes on: every completion is kept. *)
Fixpoint callEach {S : Type} (f : jsfun S) (argss : list (list value)) (s : S)
  : list (completion value) * S :=
  match argss with
  | [] => ([], s)
  | arguments :: rest =>
      let (c, s') := f arguments s in
      let (cs, s'') := callEach f rest s' in
      (c :: cs, s'')
  end.

(** ** Objects: own properties and their enumeration order *)

(** An array index is a canonical numeric string below [2^32 - 1]:
    [Object.keys] lists the own properties whose keys are array indices first,
    in ascending numeric order, and then the other string keys in the order
    they were created. *)
Definition arrayIndex (key : string) : option N :=
  match NilEmpty.uint_of_string key with
  | Some d =>
      let n := N.of_uint d in
      if String.eqb (NilEmpty.string_of_uint (N.to_uint n)) key && (n <? 4294967295)%N
      then Some n
      else None
  | None => None
  end.

(** The key of the [i]-th element of an array. *)
Definition indexKey (i : nat) : string := NilEmpty.string_of_uint (Nat.to_uint i).

Fixpoint getOwnProperty (key : string) (props : list (string * value)) : option value :=
  match props with
  | [] => None
  | (k, v) :: rest => if String.eqb k key then Some v else getOwnProperty key rest
  end.

(** Assignment to a property the object has: the key keeps its place. *)
Fixpoint overwriteProperty (key : string) (v : value) (props : list (string * value))
  : list (string * value) :=
  match props with
  | [] => []
  | (k, x) :: rest =>
      if String.eqb k key then (k, v) :: rest
      else (k, x) :: overwriteProperty key v rest
  end.

(** A new property whose key is the array index [n] goes before the first
    property that is not an array index or is a larger one. *)
Fixpoint insertIndexProperty (n : N) (key : string) (v : value)
    (props : list (string * value)) : list (string * value) :=
  match props with
  | [] => [(key, v)]
  | (k, x) :: rest =>
      match arrayIndex k with
      | Some m =>
          if (m <? n)%N then (k, x) :: insertIndexProperty n key v rest
          else (key, v) :: props
      | None => (key, v) :: props
      end
  end.

(** [composition[key] = v] on a plain object.  An object that has no
    property [__proto__] of its own inherits an accessor of that name: the
    assignment runs its setter, which creates no property. *)
Definition setProperty (props : list (string * value)) (key : string) (v : value)
  : list (string * value) :=
  match getOwnProperty key props with
  | Some _ => overwriteProperty key v props
  | None =>
      if String.eqb key "__proto__" then props
      else
        match arrayIndex key with
        | Some n => insertIndexProperty n key v props
        | None => props ++ [(key, v)]
        end
  end.

(** [Object.keys(o)]: [null] and [undefined] cannot be converted to objects;
    the primitives and the functions of this embedding have no enumerable
    property of their own, except the characters of a string. *)
Definition Object_keys (o : value) : completion (list string) :=
  match o with
  | VUndefined | VNull => Abrupt TypeError
  | VObject _ props => Normal (map fst props)
  | VArray _ elements => Normal (map indexKey (seq 0 (List.length elements)))
  | VString s => Normal (map indexKey (seq 0 (String.length s)))
  | _ => Normal []
  end.

(** [o[key]] for a key that [Object.keys(o)] listed. *)
Definition getProperty (o : value) (key : string) : value :=
  match o with
  | VObject _ props =>
      match getOwnProperty key props with
      | Some v => v
      | None => VUndefined
      end
  | VArray _ elements =>
      match arrayIndex key with
      | Some n => item elements (N.to_nat n)
      | None => VUndefined
      end
  | VString s =>
      match arrayIndex key with
      | Some n =>
          match String.get (N.to_nat n) s with
          | Some c => VString (String c EmptyString)
          | None => VUndefined
          end
      | None => VUndefined
      end
  | _ => VUndefined
  end.

(** [values.reduce((composition, value, index) => { composition[objectKeys[index]]
    = value; return composition }, {})], from position [index] on.  A missing
    [objectKeys[index]] is [undefined], which as a property key reads
    ["undefined"]. *)
Fixpoint reduceValues (objectKeys : list string) (values : list value) (index : nat)
    (composition : list (string * value)) : list (string * value) :=
  match values with
  | [] => composition
  | v :: rest =>
      reduceValues objectKeys rest (S index)
        (setProperty composition (nth index objectKeys "undefined") v)
  end.

(** ** The dependency extractor (index.js, lines 78-93) *)

Definition isFunction (dep : value) : bool := String.eqb (typeof dep) "function".

(** [Array.isArray(funcs[0]) ? funcs[0] : funcs] *)
Definition dependencyList (funcs : list value) : list value :=
  match funcs with
  | VArray _ elements :: _ => elements
  | _ => funcs
  end.

Definition dependencyError (dependencies : list value) : thrown :=
  let dependencyTypes := join ", " (map typeof dependencies) in
  Error (String.append
           "Selector creators expect all input-selectors to be functions, "
           (String.append "instead received the following types: ["
              (String.append dependencyTypes "]"))).

Definition getDependencies (funcs : list value) : completion (list value) :=
  let dependencies := dependencyList funcs in
  if negb (forallb isFunction dependencies) then Abrupt (dependencyError dependencies)
  else Normal dependencies.

(** ** The selector composer (index.js, lines 104-156) *)

(** What the closure of a selector captures besides its mutable variables:
    the combining function, exposed as [selector.resultFunc], and the
    dependency list.  The type records the memoization strategy the selector
    was created with. *)
Record selector (memoize : memoizer) : Type := mkSelector {
  resultFunc : value;
  dependencies : list value
}.

Arguments mkSelector {memoize} resultFunc dependencies.
Arguments resultFunc {memoize} s.
Arguments dependencies {memoize} s.

(** [funcs.pop()]: the last element ([undefined] when there is none) and the
    shortened array. *)
Definition pop (funcs : list value) : value * list value :=
  (last funcs VUndefined, removelast funcs).

(** The function [createSelectorCreator(memoize, ...memoizeOptions)] returns,
    up to the point where the closures are built: only [getDependencies] can
    throw. *)
Definition createSelectorCreator (memoize : memoizer) (funcs : list value)
  : completion (selector memoize) :=
  let (resultFunc, funcs) := pop funcs in
  match getDependencies funcs with
  | Normal dependencies => Normal (mkSelector resultFunc dependencies)
  | Abrupt e => Abrupt e
  end.

(** [createSelector = createSelectorCreator(defaultMemoize)] *)
Definition createSelector (funcs : list value)
  : completion (selector (defaultMemoizer defaultEqualityCheck)) :=
  createSelectorCreator (defaultMemoizer defaultEqualityCheck) funcs.

Section Calls.

(** The world [W] is whatever state the functions of the caller read and
    write; [userFunction id this] says what calling each of them on the
    receiver [this] does, and [allocate] is the engine handing out the
    identity of a new object. *)
Variable W : Type.
Variable userFunction : positive -> value -> jsfun W.
Variable allocate : W -> positive * W.

(** The combiner [(...values) => values.reduce(..., {})] of a structured
    selector. *)
Definition structuredCombiner (objectKeys : list string) : jsfun W :=
  fun values w =>
    let (id, w') := allocate w in
    (Normal (VObject id (reduceValues objectKeys values 0 [])), w').

(** Calling the function [f] on the receiver [this]; the combiner is an
    arrow function and has no receiver. *)
Definition callFunction (f : funref) (this : value) : jsfun W :=
  match f with
  | UserFunction id => userFunction id this
  | StructuredCombiner _ objectKeys => structuredCombiner objectKeys
  end.

(** An [arguments] object as a value: an object, not an array, with the
    arguments under the keys ["0"], ["1"], ... *)
Definition argumentsObject (id : positive) (arguments : list value) : value :=
  VObject id (combine (map indexKey (seq 0 (List.length arguments))) arguments).

(** Whether [v] is an object with a property [apply] of its own that is a
    function. *)
Definition hasCallableApply (v : value) : bool :=
  match v with
  | VObject _ props =>
      match getOwnProperty "apply" props with
      | Some (VFunction _) => true
      | _ => false
      end
  | _ => false
  end.

(** [f.apply(null, arguments)].  For a function, [apply] is the built-in
    one: [f] is called on the receiver [null] with the arguments.  For an
    object with a function [apply] of its own, that function is called on
    the receiver [f] with two arguments, [null] and the [arguments] object.
    For any other value the property is missing or not callable and the
    call is a [TypeError]. *)
Definition Function_apply (f : value) : jsfun W :=
  fun arguments w =>
    match f with
    | VFunction g => callFunction g VNull arguments w
    | VObject _ props =>
        match getOwnProperty "apply" props with
        | Some (VFunction g) =>
            let (id, w') := allocate w in
            callFunction g f [VNull; argumentsObject id arguments] w'
        | _ => (Abrupt TypeError, w)
        end
    | _ => (Abrupt TypeError, w)
    end.

(** The loop that fills [params]: [i] is the loop index, [remaining] is
    [length - i].  (The dependencies of a selector that was created are
    functions.) *)
Fixpoint paramsLoop (dependencies : list value) (arguments : list value)
    (remaining i : nat) (params : list value) (w : W) : completion (list value) * W :=
  match remaining with
  | O => (Normal params, w)
  | S remaining' =>
      match Function_apply (item dependencies i) arguments w with
      | (Normal v, w') =>
          paramsLoop dependencies arguments remaining' (S i) (params ++ [v]) w'
      | (Abrupt e, w') => (Abrupt e, w')
      end
  end.

Definition extractParams (dependencies : list value) (arguments : list value) (w : W)
  : completion (list value) * W :=
  paramsLoop dependencies arguments (List.length dependencies) 0 [] w.

Section Selector.

Variable memoize : memoizer.
Variable sel : selector memoize.

(** The mutable variables of one selector, outermost first: the slot of the
    outer [defaultMemoize], the state of [memoizedResultFunc], the
    [recomputations] counter; and the world. *)
Definition selectorState : Type := slot * (memo_state memoize * (nat * W)).

(** [memoize(function () { recomputations++; return resultFunc.apply(null,
    arguments) }, ...memoizeOptions)] *)
Definition memoizedResultFunc : jsfun (memo_state memoize * (nat * W)) :=
  memo_wrap memoize (nat * W)%type (counting (Function_apply (resultFunc sel))).

(** The function the outer [defaultMemoize] wraps. *)
Definition selectorBody : jsfun (memo_state memoize * (nat * W)) :=
  fun arguments st =>
    let '(inner, (count, w)) := st in
    match extractParams (dependencies sel) arguments w with
    | (Normal params, w') => memoizedResultFunc params (inner, (count, w'))
    | (Abrupt e, w') => (Abrupt e, (inner, (count, w')))
    end.

(** Calling the selector. *)
Definition call : jsfun selectorState :=
  defaultMemoize selectorBody defaultEqualityCheck.

(** [selector.recomputations()] *)
Definition recomputations (st : selectorState) : nat := fst (snd (snd st)).

(** [selector.resetRecomputations()]: the assignment and its value. *)
Definition resetRecomputations (st : selectorState) : nat * selectorState :=
  let '(outer, (inner, (_, w))) := st in (0, (outer, (inner, (0, w)))).

(** The state of a selector that has just been created, in world [w]. *)
Definition created (w : W) : selectorState := (emptySlot, (memo_fresh memoize, (0, w))).

End Selector.

(** ** The structured selector builder (index.js, lines 158-175) *)

Definition structuredError (selectors : value) : thrown :=
  Error (String.append
           "createStructuredSelector expects first argument to be an object "
           (String.append "where each property is a selector, instead received a "
              (typeof selectors))).

(** [selectorCreator] defaults to [createSelector].  The array that
    [objectKeys.map] returns and the arrow function are new values: each
    takes a fresh identity. *)
Definition createStructuredSelector {X : Type} (selectors : value)
    (selectorCreator : list value -> completion X) (w : W) : completion X * W :=
  if negb (String.eqb (typeof selectors) "object") then (Abrupt (structuredError selectors), w)
  else
    match Object_keys selectors with
    | Abrupt e => (Abrupt e, w)
    | Normal objectKeys =>
        let (arrayId, w1) := allocate w in
        let (closureId, w2) := allocate w1 in
        (selectorCreator
           [VArray arrayId (map (fun key => getProperty selectors key) objectKeys);
            VFunction (StructuredCombiner closureId objectKeys)],
         w2)
    end.

End Calls.

Arguments structuredCombiner {W} allocate objectKeys _ _.
Arguments callFunction {W} userFunction allocate f this _ _.
Arguments Function_apply {W} userFunction allocate f _ _.
Arguments paramsLoop {W} userFunction allocate dependencies arguments remaining i params w.
Arguments extractParams {W} userFunction allocate dependencies arguments w.
Arguments memoizedResultFunc {W} userFunction allocate {memoize} sel _ _.
Arguments selectorBody {W} userFunction allocate {memoize} sel _ _.
Arguments call {W} userFunction allocate {memoize} sel _ _.
Arguments recomputations {W memoize} st.
Arguments resetRecomputations {W memoize} st.
Arguments created {W} memoize w.
Arguments createStructuredSelector {W} allocate {X} selectors selectorCreator w.

(** ** A small world to run the library in *)

Module Demo.

(** The world is the next free identity. *)
Definition world : Type := positive.

Definition allocate (w : world) : positive * world := (w, Pos.succ w).

(** Four functions of a caller, none of which looks at its receiver: one
    reads the property [a] of its first argument and one the property [b],
    one adds two numbers (and answers [NaN] to anything else), and one
    always throws. *)
Definition selectA : value := VFunction (UserFunction 1).
Definition selectB : value := VFunction (UserFunction 2).
Definition add : value := VFunction (UserFunction 3).
Definition failing : value := VFunction (UserFunction 4).

Definition userFunction (id : positive) (this : value) : jsfun world :=
  fun arguments w =>
    match id with
    | 1%positive => (Normal (getProperty (item arguments 0) "a"), w)
    | 2%positive => (Normal (getProperty (item arguments 0) "b"), w)
    | 3%positive =>
        match arguments with
        | [VNumber x; VNumber y] => (Normal (VNumber (x + y)%float), w)
        | _ => (Normal (VNumber nan), w)
        end
    | _ => (Abrupt (Raised (VString "boom")), w)
    end.

(** Two distinct objects with the same fields, and a third with another
    [b]. *)
Definition state1 : value := VObject 10 [("a", VNumber 1%float); ("b", VNumber 2%float)].
Definition state2 : value := VObject 11 [("a", VNumber 1%float); ("b", VNumber 2%float)].
Definition state3 : value := VObject 12 [("a", VNumber 1%float); ("b", VNumber 3%float)].

(** The selector that adds the properties [a] and [b] of its argument. *)
Definition sum : selector (defaultMemoizer defaultEqualityCheck) :=
  mkSelector add [selectA; selectB].

End Demo.

(** * Properties *)

(** ** The comparator *)

Section Comparator.

Variable equalityCheck : comparator.

(** The loop answers [true] exactly when the comparator accepts every
    position it visits. *)
Lemma shallowLoop_true (prev next : list value) (remaining i : nat) :
  shallowLoop equalityCheck prev next remaining i = true <->
  forall j, i <= j < i + remaining -> equalityCheck (item prev j) (item next j) = true.
Proof.
  revert i; induction remaining as [|r IH]; intros i; simpl.
  - split; [intros _ j Hj; lia | reflexivity].
  - destruct (equalityCheck (item prev i) (item next i)) eqn:E; simpl.
    + rewrite IH; split; intros H j Hj.
      * destruct (Nat.eq_dec j i) as [->|Hne]; [exact E | apply H; lia].
      * apply H; lia.
    + split; [discriminate|].
      intros H; rewrite <- E; apply H; lia.
Qed.

Lemma shallowEqual_true (prev next : list value) :
  areArgumentsShallowlyEqual equalityCheck (Some prev) (Some next) = true <->
  List.length prev = List.length next /\
  forall i, i < List.length prev -> equalityCheck (item prev i) (item next i) = true.
Proof.
  unfold areArgumentsShallowlyEqual.
  destruct (List.length prev =? List.length next) eqn:E; simpl.
  - apply Nat.eqb_eq in E. rewrite shallowLoop_true. split.
    + intros H; split; [exact E|]; intros i Hi; apply H; lia.
    + intros [_ H] j Hj; apply H; lia.
  - apply Nat.eqb_neq in E. split; [discriminate | intros [H _]; contradiction].
Qed.

Lemma shallowEqual_false (prev next : list value) :
  areArgumentsShallowlyEqual equalityCheck (Some prev) (Some next) = false <->
  List.length prev <> List.length next \/
  exists i, i < List.length prev /\ equalityCheck (item prev i) (item next i) = false.
Proof.
  split.
  - intros H.
    destruct (Nat.eq_dec (List.length prev) (List.length next)) as [E|E]; [right | left; exact E].
    unfold areArgumentsShallowlyEqual in H.
    rewrite (proj2 (Nat.eqb_eq _ _) E) in H; simpl in H.
    clear E. revert H. generalize (List.length prev) at 1 2 as r.
    assert (G : forall r i, shallowLoop equalityCheck prev next r i = false ->
                exists j, i <= j < i + r /\ equalityCheck (item prev j) (item next j) = false).
    { induction r as [|r IH]; intros i; simpl; [discriminate|].
      destruct (equalityCheck (item prev i) (item next i)) eqn:C; simpl.
      - intros H; destruct (IH _ H) as (j & Hj & Hc); exists j; split; [lia | exact Hc].
      - intros _; exists i; split; [lia | exact C]. }
    intros r H; destruct (G r 0 H) as (j & Hj & Hc); exists j; split; [lia | exact Hc].
  - intros H.
    destruct (areArgumentsShallowlyEqual equalityCheck (Some prev) (Some next)) eqn:E; [|reflexivity].
    apply shallowEqual_true in E; destruct E as [El Ec].
    destruct H as [H | (i & Hi & Hc)]; [contradiction|].
    rewrite (Ec i Hi) in Hc; discriminate.
Qed.

End Comparator.

(** C3.  For every comparator [C] and argument lists [prev] and [next], the
    shallow-equality check returns [true] if and only if neither list is the
    unset sentinel, the lengths are equal and [C (prev[i]) (next[i])] holds at
    every index [i]; it returns [false] as soon as either list is the unset
    sentinel (also when both are) and whenever the lengths differ. *)
Theorem areArgumentsShallowlyEqual_iff (C : comparator) (prev next : option (list value)) :
  (areArgumentsShallowlyEqual C prev next = true <->
   exists p n,
     prev = Some p /\ next = Some n /\ List.length p = List.length n /\
     forall i, i < List.length p -> C (item p i) (item n i) = true)
  /\ (prev = None \/ next = None -> areArgumentsShallowlyEqual C prev next = false)
  /\ (forall p n, prev = Some p -> next = Some n -> List.length p <> List.length n ->
      areArgumentsShallowlyEqual C prev next = false).
Proof.
  split; [|split].
  - split.
    + destruct prev as [p|], next as [n|]; try discriminate.
      intros H; apply shallowEqual_true in H.
      exists p, n; repeat split; apply H.
    + intros (p & n & -> & -> & Hl & Hc); apply shallowEqual_true; split; assumption.
  - intros [-> | ->]; [reflexivity | destruct prev; reflexivity].
  - intros p n -> -> Hl; apply shallowEqual_false; left; exact Hl.
Qed.

(** ** The single-slot memoizer *)

Section Memoizer.

Context {S : Type}.
Variable func : jsfun S.
Variable equalityCheck : comparator.

Lemma defaultMemoize_hit (cache : slot) (s : S) (arguments : list value) :
  areArgumentsShallowlyEqual equalityCheck (lastArgs cache) (Some arguments) = true ->
  defaultMemoize func equalityCheck arguments (cache, s) =
  (Normal (lastResult cache),
   ({| lastArgs := Some arguments; lastResult := lastResult cache |}, s)).
Proof. intros H; unfold defaultMemoize; rewrite H; reflexivity. Qed.

Lemma defaultMemoize_miss (cache : slot) (s : S) (arguments : list value) :
  areArgumentsShallowlyEqual equalityCheck (lastArgs cache) (Some arguments) = false ->
  defaultMemoize func equalityCheck arguments (cache, s) =
  match func arguments s with
  | (Normal result, s') =>
      (Normal result, ({| lastArgs := Some arguments; lastResult := result |}, s'))
  | (Abrupt e, s') => (Abrupt e, (cache, s'))
  end.
Proof. intros H; unfold defaultMemoize; rewrite H; reflexivity. Qed.


End Memoizer.

(** The number of invocations a [counting] function under a memoizer has
    recorded. *)
Definition invocations {M S : Type} (st : M * (nat * S)) : nat := fst (snd st).

(** C4.  On a cache hit the memoized function leaves [lastResult] as it is
    and does not invoke the wrapped function (its invocation count and its
    state stay put); on a miss whose computation returns, [lastResult] becomes
    the new value; in both branches [lastArgs] becomes the current argument
    list. *)
Theorem defaultMemoize_hit_and_miss {S : Type} (func : jsfun S) (equalityCheck : comparator)
    (cache : slot) (count : nat) (s : S) (arguments : list value) :
  (areArgumentsShallowlyEqual equalityCheck (lastArgs cache) (Some arguments) = true ->
   defaultMemoize (counting func) equalityCheck arguments (cache, (count, s)) =
   (Normal (lastResult cache),
    ({| lastArgs := Some arguments; lastResult := lastResult cache |}, (count, s))))
  /\
  (areArgumentsShallowlyEqual equalityCheck (lastArgs cache) (Some arguments) = false ->
   forall (result : value) (s' : S),
     func arguments s = (Normal result, s') ->
     defaultMemoize (counting func) equalityCheck arguments (cache, (count, s)) =
     (Normal result,
      ({| lastArgs := Some arguments; lastResult := result |}, (Datatypes.S count, s')))).
Proof.
  split.
  - intros H; apply defaultMemoize_hit; exact H.
  - intros H result s' Hf.
    rewrite defaultMemoize_miss by exact H.
    unfold counting; rewrite Hf; reflexivity.
Qed.

(** C8.  When a call takes the recompute branch and the wrapped function
    throws, the error reaches the caller and the cache is what it was before
    the call; the very next call with the same arguments therefore invokes
    the function again. *)
Theorem defaultMemoize_error_not_cached {S : Type} (func : jsfun S)
    (equalityCheck : comparator) (cache : slot) (count : nat) (s s' : S)
    (arguments : list value) (e : thrown) :
  areArgumentsShallowlyEqual equalityCheck (lastArgs cache) (Some arguments) = false ->
  func arguments s = (Abrupt e, s') ->
  defaultMemoize (counting func) equalityCheck arguments (cache, (count, s)) =
  (Abrupt e, (cache, (Datatypes.S count, s')))
  /\
  invocations
    (snd (defaultMemoize (counting func) equalityCheck arguments
            (cache, (Datatypes.S count, s')))) = Datatypes.S (Datatypes.S count).
Proof.
  intros Hmiss Hf. split.
  - rewrite defaultMemoize_miss by exact Hmiss.
    unfold counting; rewrite Hf; reflexivity.
  - rewrite defaultMemoize_miss by exact Hmiss.
    unfold counting.
    destruct (func arguments s') as [[r|e'] s'']; reflexivity.
Qed.

(** C2.  Two calls in a row of [defaultMemoize(f)], the first with [A], under
    the default comparator: when the second argument list equals [A] element
    by element, [f] is invoked once and both calls return the same value; when
    it differs from [A] in length or at some position, [f] is invoked twice. *)
Theorem defaultMemoize_twice {S : Type} (f : jsfun S) (A B : list value) (s : S)
    (r1 r2 : value) (st : slot * (nat * S)) :
  callInSequence (defaultMemoize (counting f) defaultEqualityCheck) [A; B]
    (emptySlot, (0, s)) = (Normal [r1; r2], st) ->
  (List.length A = List.length B /\
   (forall i, i < List.length A -> defaultEqualityCheck (item A i) (item B i) = true) ->
   invocations st = 1 /\ r2 = r1)
  /\
  (List.length A <> List.length B \/
   (exists i, i < List.length A /\ defaultEqualityCheck (item A i) (item B i) = false) ->
   invocations st = 2).
Proof.
  cbn [callInSequence].
  rewrite defaultMemoize_miss by reflexivity.
  unfold counting at 1.
  destruct (f A s) as [[v1|e1] s1]; [|discriminate].
  destruct (areArgumentsShallowlyEqual defaultEqualityCheck (Some A) (Some B)) eqn:E.
  - rewrite defaultMemoize_hit by exact E. simpl.
    intros H; inversion H; subst. split.
    + intros _; split; reflexivity.
    + intros Hd; apply shallowEqual_false in Hd; congruence.
  - rewrite defaultMemoize_miss by exact E.
    unfold counting.
    destruct (f B s1) as [[v2|e2] s2]; [|discriminate].
    intros H; inversion H; subst. split.
    + intros He; apply shallowEqual_true in He; congruence.
    + intros _; reflexivity.
Qed.

(** ** The dependency extractor and selector creation *)

Lemma forallb_isFunction_false (dependencies : list value) :
  forallb isFunction dependencies = false <->
  exists dep, In dep dependencies /\ typeof dep <> "function".
Proof.
  split.
  - intros H.
    destruct (existsb (fun dep => negb (isFunction dep)) dependencies) eqn:E.
    + apply existsb_exists in E; destruct E as (dep & Hin & Hn).
      exists dep; split; [exact Hin|].
      intros Ht; unfold isFunction in Hn; rewrite Ht in Hn; discriminate.
    + assert (forallb isFunction dependencies = true); [|congruence].
      apply forallb_forall; intros dep Hin.
      destruct (isFunction dep) eqn:F; [reflexivity|].
      assert (existsb (fun dep => negb (isFunction dep)) dependencies = true); [|congruence].
      apply existsb_exists; exists dep; rewrite F; split; [exact Hin | reflexivity].
  - intros (dep & Hin & Hn).
    destruct (forallb isFunction dependencies) eqn:E; [|reflexivity].
    rewrite forallb_forall in E; specialize (E dep Hin).
    unfold isFunction in E; apply String.eqb_eq in E; contradiction.
Qed.

(** C5.  When the dependency list that [createSelectorCreator] extracts from
    its arguments has an entry that is not a function, creation throws (no
    selector is returned), whatever the memoization strategy; the message
    lists the [typeof] of every dependency, valid or not, in their order,
    separated by a comma and a space. *)
Theorem createSelectorCreator_invalid_dependency (memoize : memoizer) (funcs : list value) :
  (exists dep, In dep (dependencyList (removelast funcs)) /\ typeof dep <> "function") ->
  createSelectorCreator memoize funcs =
  Abrupt
    (Error
       (String.append
          "Selector creators expect all input-selectors to be functions, instead received the following types: ["
          (String.append (join ", " (map typeof (dependencyList (removelast funcs)))) "]"))).
Proof.
  intros H; apply forallb_isFunction_false in H.
  unfold createSelectorCreator, pop, getDependencies.
  rewrite H; reflexivity.
Qed.

Lemma createSelectorCreator_valid (memoize : memoizer) (funcs : list value) :
  forallb isFunction (dependencyList (removelast funcs)) = true ->
  createSelectorCreator memoize funcs =
  Normal (mkSelector (last funcs VUndefined) (dependencyList (removelast funcs))).
Proof.
  intros H; unfold createSelectorCreator, pop, getDependencies.
  rewrite H; reflexivity.
Qed.

(** A selector that was created has passed the check on its dependencies. *)
Lemma createSelectorCreator_inv (memoize : memoizer) (funcs : list value)
    (sel : selector memoize) :
  createSelectorCreator memoize funcs = Normal sel ->
  sel = mkSelector (last funcs VUndefined) (dependencyList (removelast funcs)) /\
  forallb isFunction (dependencies sel) = true.
Proof.
  unfold createSelectorCreator, pop, getDependencies.
  destruct (forallb isFunction (dependencyList (removelast funcs))) eqn:E; simpl.
  - intros H; inversion H; subst; split; [reflexivity | exact E].
  - discriminate.
Qed.

(** ** Calling a selector *)


Section SelectorCalls.

Variable W : Type.
Variable userFunction : positive -> value -> jsfun W.
Variable allocate : W -> positive * W.

(** The selectors of this section memoize [resultFunc] with [defaultMemoize]
    and some comparator, as those of [createSelector] do. *)
Variable equalityCheck : comparator.
Variable sel : selector (defaultMemoizer equalityCheck).

Local Abbreviation state := (selectorState W (defaultMemoizer equalityCheck)).
Local Abbreviation applyFn := (Function_apply userFunction allocate).
Local Abbreviation extract := (extractParams userFunction allocate).
Local Abbreviation callSelector := (call userFunction allocate sel).

(** The outer layer hits: nothing but its [lastArgs] changes. *)
Lemma call_outer_hit (outer : slot) (rest : slot * (nat * W)) (arguments : list value) :
  areArgumentsShallowlyEqual defaultEqualityCheck (lastArgs outer) (Some arguments) = true ->
  callSelector arguments (outer, rest) =
  (Normal (lastResult outer),
   ({| lastArgs := Some arguments; lastResult := lastResult outer |}, rest)).
Proof. intros H; unfold call; apply defaultMemoize_hit; exact H. Qed.

(** The outer layer misses: the dependencies run, then the inner layer
    decides. *)
Lemma call_outer_miss (outer inner : slot) (count : nat) (w : W) (arguments : list value) :
  areArgumentsShallowlyEqual defaultEqualityCheck (lastArgs outer) (Some arguments) = false ->
  callSelector arguments (outer, (inner, (count, w))) =
  match extract (dependencies sel) arguments w with
  | (Abrupt e, w') => (Abrupt e, (outer, (inner, (count, w'))))
  | (Normal params, w') =>
      if areArgumentsShallowlyEqual equalityCheck (lastArgs inner) (Some params)
      then
        (Normal (lastResult inner),
         ({| lastArgs := Some arguments; lastResult := lastResult inner |},
          ({| lastArgs := Some params; lastResult := lastResult inner |}, (count, w'))))
      else
        match applyFn (resultFunc sel) params w' with
        | (Normal v, w'') =>
            (Normal v,
             ({| lastArgs := Some arguments; lastResult := v |},
              ({| lastArgs := Some params; lastResult := v |}, (S count, w''))))
        | (Abrupt e, w'') => (Abrupt e, (outer, (inner, (S count, w''))))
        end
  end.
Proof.
  intros H; unfold call.
  rewrite defaultMemoize_miss by exact H.
  unfold selectorBody, memoizedResultFunc; cbn [memo_wrap defaultMemoizer].
  destruct (extract (dependencies sel) arguments w) as [[params|e] w']; [|reflexivity].
  unfold defaultMemoize.
  destruct (areArgumentsShallowlyEqual equalityCheck (lastArgs inner) (Some params));
    cbn [negb]; [reflexivity|].
  unfold counting.
  destruct (applyFn (resultFunc sel) params w') as [[v|e] w'']; reflexivity.
Qed.

(** The first call of a selector that returns has run the dependencies and
    the combining function once. *)
Lemma call_created (w : W) (arguments : list value) (v : value) (st : state) :
  callSelector arguments (created (defaultMemoizer equalityCheck) w) = (Normal v, st) ->
  exists params w' w'',
    extract (dependencies sel) arguments w = (Normal params, w') /\
    applyFn (resultFunc sel) params w' = (Normal v, w'') /\
    st = ({| lastArgs := Some arguments; lastResult := v |},
          ({| lastArgs := Some params; lastResult := v |}, (1, w''))).
Proof.
  unfold created; cbn [memo_fresh defaultMemoizer].
  rewrite call_outer_miss by reflexivity.
  destruct (extract (dependencies sel) arguments w) as [[params|e] w']; [|discriminate].
  cbn [areArgumentsShallowlyEqual lastArgs emptySlot].
  destruct (applyFn (resultFunc sel) params w') as [[v'|e] w''] eqn:E; [|discriminate].
  intros H; inversion H; subst.
  exists params, w', w''; repeat split; assumption.
Qed.





End SelectorCalls.

Lemma Function_apply_not_callable {W : Type} (userFunction : positive -> value -> jsfun W)
    (allocate : W -> positive * W) (f : value) (arguments : list value) (w : W) :
  typeof f <> "function" ->
  hasCallableApply f = false ->
  Function_apply userFunction allocate f arguments w = (Abrupt TypeError, w).
Proof.
  destruct f; cbn; intros H Ha; try reflexivity.
  - contradiction H; reflexivity.
  - destruct (getOwnProperty "apply" properties) as [[]|]; try reflexivity; discriminate.
Qed.


(** C9.  The function handed to the memoization strategy increments
    [recomputations] before it calls the combining function: when that call
    throws, the count has gone up by one all the same.  So a call of the
    selector that reaches the combining function (both layers miss) and sees
    it throw ends with the same error, one more recomputation and both caches
    as they were. *)
Theorem recomputations_counts_failed_attempts {W : Type} (userFunction : positive -> value -> jsfun W)
    (allocate : W -> positive * W) (equalityCheck : comparator) (funcs : list value)
    (sel : selector (defaultMemoizer equalityCheck)) (arguments params : list value)
    (outer inner : slot) (count : nat) (w w' w'' : W) (e : thrown) :
  createSelectorCreator (defaultMemoizer equalityCheck) funcs = Normal sel ->
  areArgumentsShallowlyEqual defaultEqualityCheck (lastArgs outer) (Some arguments) = false ->
  extractParams userFunction allocate (dependencies sel) arguments w = (Normal params, w') ->
  areArgumentsShallowlyEqual equalityCheck (lastArgs inner) (Some params) = false ->
  Function_apply userFunction allocate (resultFunc sel) params w' = (Abrupt e, w'') ->
  counting (Function_apply userFunction allocate (resultFunc sel)) params (count, w') =
  (Abrupt e, (S count, w''))
  /\
  call userFunction allocate sel arguments (outer, (inner, (count, w))) =
  (Abrupt e, (outer, (inner, (S count, w'')))).
Proof.
  intros _ Ho Hx Hi Hr. split.
  - unfold counting; rewrite Hr; reflexivity.
  - rewrite call_outer_miss by exact Ho.
    rewrite Hx, Hi, Hr; reflexivity.
Qed.

(** C10.  Creation checks the dependencies and never the trailing combining
    function: when the last argument is not a function and the dependencies
    all are, a selector is returned, under any memoization strategy.  When,
    besides, that last argument is not an object with a function [apply] of
    its own, the failure comes when the selector (here with [defaultMemoize]
    inside) is called and both layers miss, as on its first call: the
    dependencies have run, the count has gone up, and the call ends in a
    [TypeError]. *)
Theorem createSelectorCreator_unchecked_combiner {W : Type}
    (userFunction : positive -> value -> jsfun W) (allocate : W -> positive * W)
    (memoize : memoizer) (equalityCheck : comparator) (funcs : list value) :
  typeof (last funcs VUndefined) <> "function" ->
  (forall dep, In dep (dependencyList (removelast funcs)) -> typeof dep = "function") ->
  createSelectorCreator memoize funcs =
  Normal (mkSelector (last funcs VUndefined) (dependencyList (removelast funcs)))
  /\
  forall (sel : selector (defaultMemoizer equalityCheck)) (arguments params : list value)
         (outer inner : slot) (count : nat) (w w' : W),
    hasCallableApply (last funcs VUndefined) = false ->
    createSelectorCreator (defaultMemoizer equalityCheck) funcs = Normal sel ->
    areArgumentsShallowlyEqual defaultEqualityCheck (lastArgs outer) (Some arguments) = false ->
    extractParams userFunction allocate (dependencies sel) arguments w = (Normal params, w') ->
    areArgumentsShallowlyEqual equalityCheck (lastArgs inner) (Some params) = false ->
    call userFunction allocate sel arguments (outer, (inner, (count, w))) =
    (Abrupt TypeError, (outer, (inner, (S count, w')))).
Proof.
  intros Hlast Hdeps.
  assert (Hall : forallb isFunction (dependencyList (removelast funcs)) = true).
  { apply forallb_forall; intros dep Hin; unfold isFunction.
    apply String.eqb_eq, Hdeps, Hin. }
  split.
  - apply createSelectorCreator_valid; exact Hall.
  - intros sel arguments params outer inner count w w' Happly Hsel Ho Hx Hi.
    apply createSelectorCreator_inv in Hsel; destruct Hsel as [-> _].
    rewrite call_outer_miss by exact Ho.
    cbn [dependencies resultFunc] in *.
    rewrite Hx, Hi.
    rewrite Function_apply_not_callable by assumption; reflexivity.
Qed.

(** ** Structured selectors *)

(** C7.  When [typeof] of the first argument is not ["object"], the builder
    throws before it creates anything, whatever the selector creator, and the
    message ends with the [typeof] of what was received.  [null], whose
    [typeof] is ["object"], passes that test and is stopped by [Object.keys]
    with a [TypeError]. *)
Theorem createStructuredSelector_not_an_object {W X : Type} (allocate : W -> positive * W)
    (selectors : value) (selectorCreator : list value -> completion X) (w : W) :
  (typeof selectors <> "object" ->
   createStructuredSelector allocate selectors selectorCreator w =
   (Abrupt
      (Error
         (String.append
            "createStructuredSelector expects first argument to be an object where each property is a selector, instead received a "
            (typeof selectors))),
    w))
  /\
  createStructuredSelector allocate VNull selectorCreator w = (Abrupt TypeError, w).
Proof.
  split; [|reflexivity].
  intros H; unfold createStructuredSelector.
  destruct (String.eqb (typeof selectors) "object") eqn:E.
  - apply String.eqb_eq in E; contradiction.
  - reflexivity.
Qed.

(** [null] passes the [typeof] test and is stopped by [Object.keys]. *)
Lemma createStructuredSelector_null {W X : Type} (allocate : W -> positive * W)
    (selectorCreator : list value -> completion X) (w : W) :
  createStructuredSelector allocate VNull selectorCreator w = (Abrupt TypeError, w).
Proof. reflexivity. Qed.

(** *** Enumeration order *)

(** [keyBefore k1 k2]: an object may list [k1] before [k2].  Array indices
    come first and ascend; the other keys follow, none twice. *)
Definition keyBefore (k1 k2 : string) : Prop :=
  match arrayIndex k1, arrayIndex k2 with
  | Some m, Some n => (m < n)%N
  | Some _, None => True
  | None, Some _ => False
  | None, None => k1 <> k2
  end.

(** The keys of an object, as [Object.keys] can list them. *)
Definition enumerationOrder (keys : list string) : Prop :=
  ForallOrdPairs keyBefore keys.

Lemma keyBefore_neq (k1 k2 : string) : keyBefore k1 k2 -> k1 <> k2.
Proof.
  unfold keyBefore; intros H E; subst k2.
  destruct (arrayIndex k1); [lia | contradiction].
Qed.

Lemma getOwnProperty_absent (key : string) (props : list (string * value)) :
  Forall (fun k => k <> key) (map fst props) -> getOwnProperty key props = None.
Proof.
  induction props as [|[k v] rest IH]; cbn; intros H; [reflexivity|].
  inversion H; subst.
  destruct (String.eqb k key) eqn:E; [apply String.eqb_eq in E; contradiction|].
  apply IH; assumption.
Qed.

Lemma insertIndexProperty_last (n : N) (key : string) (v : value)
    (props : list (string * value)) :
  Forall (fun k => exists m, arrayIndex k = Some m /\ (m < n)%N) (map fst props) ->
  insertIndexProperty n key v props = props ++ [(key, v)].
Proof.
  induction props as [|[k x] rest IH]; cbn; intros H; [reflexivity|].
  inversion H as [|? ? (m & Hm & Hlt) Hrest]; subst.
  rewrite Hm. destruct (m <? n)%N eqn:E; [|apply N.ltb_ge in E; lia].
  rewrite IH by assumption; reflexivity.
Qed.

(** A key that may follow all the keys of an object is added at the end. *)
Lemma setProperty_last (props : list (string * value)) (key : string) (v : value) :
  key <> "__proto__" ->
  Forall (fun k => keyBefore k key) (map fst props) ->
  setProperty props key v = props ++ [(key, v)].
Proof.
  intros Hproto H; unfold setProperty.
  rewrite getOwnProperty_absent
    by (eapply Forall_impl; [|exact H]; intros k Hk; apply keyBefore_neq; exact Hk).
  apply String.eqb_neq in Hproto; rewrite Hproto.
  destruct (arrayIndex key) as [n|] eqn:E; [|reflexivity].
  apply insertIndexProperty_last.
  eapply Forall_impl; [|exact H].
  intros k Hk; unfold keyBefore in Hk; rewrite E in Hk.
  destruct (arrayIndex k) as [m|]; [exists m; split; [reflexivity | exact Hk] | contradiction].
Qed.

Lemma ForallOrdPairs_app_last {A : Type} (R : A -> A -> Prop) (pre : list A) (x : A)
    (suf : list A) :
  ForallOrdPairs R (pre ++ x :: suf) -> Forall (fun y => R y x) pre.
Proof.
  induction pre as [|y pre IH]; cbn; intros H; [constructor|].
  inversion H as [|? ? Hhd Htl]; subst.
  constructor; [|apply IH; exact Htl].
  apply (proj1 (Forall_forall _ _) Hhd), in_or_app; right; left; reflexivity.
Qed.

(** Filling the composition, values given in key order: the properties come
    out in the order of [objectKeys]. *)
Lemma reduceValues_in_order (suf : list (string * value)) :
  forall (pre : list (string * value)),
    enumerationOrder (map fst (pre ++ suf)) ->
    ~ In "__proto__" (map fst suf) ->
    reduceValues (map fst (pre ++ suf)) (map snd suf) (List.length pre) pre = pre ++ suf.
Proof.
  induction suf as [|[k v] suf IH]; intros pre H Hproto; cbn [map reduceValues snd].
  - rewrite app_nil_r; reflexivity.
  - assert (Hk : nth (List.length pre) (map fst (pre ++ (k, v) :: suf)) "undefined" = k).
    { rewrite map_app, app_nth2 by (rewrite length_map; lia).
      rewrite length_map, Nat.sub_diag; reflexivity. }
    rewrite Hk, setProperty_last.
    + replace (pre ++ (k, v) :: suf) with ((pre ++ [(k, v)]) ++ suf) in *
        by (rewrite <- app_assoc; reflexivity).
      replace (S (List.length pre)) with (List.length (pre ++ [(k, v)]))
        by (rewrite length_app; cbn; lia).
      apply IH; [exact H | intros Hin; apply Hproto; right; exact Hin].
    + intros ->; apply Hproto; left; reflexivity.
    + unfold enumerationOrder in H; rewrite map_app in H; cbn [map fst] in H.
      eapply ForallOrdPairs_app_last; exact H.
Qed.

(** Reading back each key of an object whose keys are in enumeration order
    gives its values in order. *)
Lemma getProperty_each (id : positive) (props : list (string * value)) :
  enumerationOrder (map fst props) ->
  map (fun key => getProperty (VObject id props) key) (map fst props) = map snd props.
Proof.
  cbn [getProperty].
  induction props as [|[k v] rest IH]; cbn [map fst snd]; intros H; [reflexivity|].
  inversion H as [|? ? Hhd Htl]; subst.
  cbn [getOwnProperty]; rewrite String.eqb_refl; f_equal.
  rewrite <- IH by exact Htl.
  apply map_ext_in; intros key Hin.
  assert (Hne : k <> key) by (apply keyBefore_neq, (proj1 (Forall_forall _ _) Hhd), Hin).
  cbn [getOwnProperty]; apply String.eqb_neq in Hne; rewrite Hne; reflexivity.
Qed.

Section Structured.

Variable W : Type.
Variable userFunction : positive -> value -> jsfun W.
Variable allocate : W -> positive * W.

(** [selectedInTurn arguments selectors w output w']: [output] has the keys
    of [selectors] in their order, and under each key the value its selector
    returns for [arguments]; the selectors run in key order, from world [w]
    to world [w']. *)
Inductive selectedInTurn (arguments : list value)
  : list (string * value) -> W -> list (string * value) -> W -> Prop :=
| selected_nil (w : W) : selectedInTurn arguments [] w [] w
| selected_cons (key : string) (f v : value) (w w' w'' : W)
    (selectors output : list (string * value)) :
    Function_apply userFunction allocate f arguments w = (Normal v, w') ->
    selectedInTurn arguments selectors w' output w'' ->
    selectedInTurn arguments ((key, f) :: selectors) w ((key, v) :: output) w''.

Lemma selectedInTurn_keys (arguments : list value) (selectors output : list (string * value))
    (w w' : W) :
  selectedInTurn arguments selectors w output w' -> map fst output = map fst selectors.
Proof. induction 1; cbn; [reflexivity | f_equal; assumption]. Qed.

Lemma paramsLoop_selectedInTurn (arguments : list value)
    (selectors output : list (string * value)) (w w' : W) :
  selectedInTurn arguments selectors w output w' ->
  forall (pre params : list value),
    paramsLoop userFunction allocate (pre ++ map snd selectors) arguments
      (List.length selectors) (List.length pre) params w =
    (Normal (params ++ map snd output), w').
Proof.
  induction 1 as [w | key f v w w' w'' selectors output Hf Hrest IH]; intros pre params.
  - cbn; rewrite app_nil_r; reflexivity.
  - cbn [List.length paramsLoop map snd].
    unfold item; rewrite app_nth2, Nat.sub_diag by lia; cbn [nth].
    rewrite Hf.
    specialize (IH (pre ++ [f]) (params ++ [v])).
    rewrite <- !app_assoc, length_app in IH; cbn [List.length app] in IH.
    rewrite Nat.add_1_r in IH. exact IH.
Qed.

Lemma extractParams_selectedInTurn (arguments : list value)
    (selectors output : list (string * value)) (w w' : W) :
  selectedInTurn arguments selectors w output w' ->
  extractParams userFunction allocate (map snd selectors) arguments w =
  (Normal (map snd output), w').
Proof.
  intros H; unfold extractParams; rewrite length_map.
  exact (paramsLoop_selectedInTurn _ _ _ _ _ H [] []).
Qed.



(** *** Every later call *)

Section History.

Variable closureId : positive.
Variable objectKeys : list string.
Variable subSelectors : list value.

Hypothesis objectKeys_order : enumerationOrder objectKeys.
Hypothesis no_proto_key : ~ In "__proto__" objectKeys.
Hypothesis one_selector_per_key : List.length subSelectors = List.length objectKeys.








End History.


End Structured.

(** * The library at work *)

Example createSelector_sum :
  createSelector [Demo.selectA; Demo.selectB; Demo.add] = Normal Demo.sum.
Proof. reflexivity. Qed.

(** The sum selector on [{a: 1, b: 2}], on the same object again, on a new
    object with the same fields, and on [{a: 1, b: 3}]: 3, 3, 3 and 4, with
    two recomputations. *)
Example sum_calls :
  let run :=
    callInSequence (call Demo.userFunction Demo.allocate Demo.sum)
      [[Demo.state1]; [Demo.state1]; [Demo.state2]; [Demo.state3]]
      (created (defaultMemoizer defaultEqualityCheck) 100%positive) in
  fst run = Normal [VNumber 3%float; VNumber 3%float; VNumber 3%float; VNumber 4%float]
  /\ recomputations (snd run) = 2.
Proof. vm_compute. split; reflexivity. Qed.

(** [NaN] is not [===] to itself: a memoized function called twice with it
    computes twice. *)
Example nan_is_computed_twice :
  invocations
    (snd (callInSequence (defaultMemoize (counting (Demo.userFunction 3 VNull)) defaultEqualityCheck)
            [[VNumber nan]; [VNumber nan]] (emptySlot, (0, 100%positive)))) = 2.
Proof. vm_compute. reflexivity. Qed.

(** A structured selector over [{x: ..., y: ...}], called on [{a: 1, b: 2}]
    and on [{a: 1, b: 3}]. *)
Example structured_calls :
  match
    createStructuredSelector Demo.allocate
      (VObject 20 [("x", Demo.selectA); ("y", Demo.selectB)]) createSelector 100%positive
  with
  | (Normal sel, _) =>
      (fst (callEach (call Demo.userFunction Demo.allocate sel)
              [[Demo.state1]; [Demo.state3]]
              (created (defaultMemoizer defaultEqualityCheck) 200%positive)) =
       [Normal (VObject 200 [("x", VNumber 1%float); ("y", VNumber 2%float)]);
        Normal (VObject 201 [("x", VNumber 1%float); ("y", VNumber 3%float)])])
  | _ => False
  end.
Proof. vm_compute. reflexivity. Qed.

(** Array-index keys come first in the result as they do in the input. *)
Example structured_index_keys :
  match
    createStructuredSelector Demo.allocate
      (VObject 20 [("2", Demo.selectB); ("10", Demo.selectA); ("x", Demo.selectA)])
      createSelector 100%positive
  with
  | (Normal sel, _) =>
      (fst (call Demo.userFunction Demo.allocate sel [Demo.state1]
              (created (defaultMemoizer defaultEqualityCheck) 200%positive)) =
       Normal (VObject 200 [("2", VNumber 2%float); ("10", VNumber 1%float);
                            ("x", VNumber 1%float)]))
  | _ => False
  end.
Proof. vm_compute. reflexivity. Qed.

(** After [resetRecomputations()] the count is 0 and the caches are kept: the
    same call again does not recompute. *)
Example reset_then_same_call :
  let st1 :=
    snd (call Demo.userFunction Demo.allocate Demo.sum [Demo.state1]
           (created (defaultMemoizer defaultEqualityCheck) 100%positive)) in
  let st2 := snd (resetRecomputations st1) in
  recomputations st1 = 1 /\ recomputations st2 = 0 /\
  recomputations (snd (call Demo.userFunction Demo.allocate Demo.sum [Demo.state2] st2)) = 0.
Proof. vm_compute. repeat split; reflexivity. Qed.

(** * Instances of the theorems *)

Module Witnesses.

Import Demo.

Definition one : value := VNumber 1%float.
Definition two : value := VNumber 2%float.
Definition three : value := VNumber 3%float.
Definition four : value := VNumber 4%float.

Definition adder : jsfun world := userFunction 3 VNull.
Definition thrower : jsfun world := userFunction 4 VNull.

Definition warm : slot := {| lastArgs := Some [one; two]; lastResult := three |}.


(** The adder memoized: the same numbers twice, then two different lists. *)
Lemma defaultMemoize_twice_witness :
  (exists st,
     callInSequence (defaultMemoize (counting adder) defaultEqualityCheck)
       [[one; two]; [one; two]] (emptySlot, (0, 100%positive)) = (Normal [three; three], st)
     /\ invocations st = 1)
  /\
  (exists st,
     callInSequence (defaultMemoize (counting adder) defaultEqualityCheck)
       [[one; two]; [one; three]] (emptySlot, (0, 100%positive)) = (Normal [three; four], st)
     /\ invocations st = 2).
Proof.
  split.
  - eexists; split; [vm_compute; reflexivity|].
    refine (proj1 (proj1 (defaultMemoize_twice adder [one; two] [one; two] 100%positive
                            three three _ eq_refl) _)).
    split; [reflexivity|].
    intros [|[|i]] Hi; [reflexivity | reflexivity | cbn in Hi; lia].
  - eexists; split; [vm_compute; reflexivity|].
    refine (proj2 (defaultMemoize_twice adder [one; two] [one; three] 100%positive
                     three four _ eq_refl) _).
    right; exists 1; split; [cbn; lia | reflexivity].
Defined.

(** A slot that remembers [1, 2] and 3: a hit on [1, 2], a miss on [1, 3]. *)
Lemma defaultMemoize_hit_and_miss_witness :
  defaultMemoize (counting adder) defaultEqualityCheck [one; two] (warm, (5, 100%positive)) =
  (Normal three, ({| lastArgs := Some [one; two]; lastResult := three |}, (5, 100%positive)))
  /\
  defaultMemoize (counting adder) defaultEqualityCheck [one; three] (warm, (5, 100%positive)) =
  (Normal four, ({| lastArgs := Some [one; three]; lastResult := four |}, (6, 100%positive))).
Proof.
  split.
  - exact (proj1 (defaultMemoize_hit_and_miss adder defaultEqualityCheck warm 5
                    100%positive [one; two]) eq_refl).
  - exact (proj2 (defaultMemoize_hit_and_miss adder defaultEqualityCheck warm 5
                    100%positive [one; three]) eq_refl four 100%positive eq_refl).
Defined.

(** The throwing function under a slot that remembers something else. *)
Lemma defaultMemoize_error_not_cached_witness :
  defaultMemoize (counting thrower) defaultEqualityCheck [one] (warm, (0, 100%positive)) =
  (Abrupt (Raised (VString "boom")), (warm, (1, 100%positive)))
  /\
  invocations
    (snd (defaultMemoize (counting thrower) defaultEqualityCheck [one]
            (warm, (1, 100%positive)))) = 2.
Proof.
  exact (defaultMemoize_error_not_cached thrower defaultEqualityCheck warm 0
           100%positive 100%positive [one] (Raised (VString "boom")) eq_refl eq_refl).
Defined.

(** A string among the dependencies. *)
Lemma createSelectorCreator_invalid_dependency_witness :
  createSelector [selectA; VString "b"; add] =
  Abrupt
    (Error
       "Selector creators expect all input-selectors to be functions, instead received the following types: [function, string]").
Proof.
  refine (createSelectorCreator_invalid_dependency (defaultMemoizer defaultEqualityCheck)
            [selectA; VString "b"; add] _).
  exists (VString "b"); split; [right; left; reflexivity | discriminate].
Defined.

(** A selector whose combining function throws, on its first call. *)
Lemma recomputations_counts_failed_attempts_witness :
  call userFunction allocate
    (mkSelector (memoize := defaultMemoizer defaultEqualityCheck) failing [selectA])
    [state1] (created (defaultMemoizer defaultEqualityCheck) 100%positive) =
  (Abrupt (Raised (VString "boom")), (emptySlot, (emptySlot, (1, 100%positive)))).
Proof.
  exact (proj2 (recomputations_counts_failed_attempts userFunction allocate
                  defaultEqualityCheck [selectA; failing]
                  (mkSelector failing [selectA]) [state1] [one] emptySlot emptySlot 0
                  100%positive 100%positive 100%positive (Raised (VString "boom"))
                  eq_refl eq_refl eq_refl eq_refl eq_refl)).
Defined.

(** An object whose [apply] is a number in the place of the combining
    function. *)
Definition notACombiner : value := VObject 30 [("apply", VNumber 5%float)].

Lemma createSelectorCreator_unchecked_combiner_witness :
  createSelector [selectA; notACombiner] = Normal (mkSelector notACombiner [selectA])
  /\
  call userFunction allocate
    (mkSelector (memoize := defaultMemoizer defaultEqualityCheck) notACombiner [selectA])
    [state1] (created (defaultMemoizer defaultEqualityCheck) 100%positive) =
  (Abrupt TypeError, (emptySlot, (emptySlot, (1, 100%positive)))).
Proof.
  assert (Hlast : typeof (last [selectA; notACombiner] VUndefined) <> "function")
    by discriminate.
  assert (Hdeps : forall dep,
             In dep (dependencyList (removelast [selectA; notACombiner])) ->
             typeof dep = "function").
  { intros dep [<- | []]; reflexivity. }
  destruct (createSelectorCreator_unchecked_combiner userFunction allocate
              (defaultMemoizer defaultEqualityCheck) defaultEqualityCheck
              [selectA; notACombiner] Hlast Hdeps) as [Hcreated Hcall].
  split; [exact Hcreated|].
  exact (Hcall (mkSelector notACombiner [selectA]) [state1] [one] emptySlot emptySlot 0
           100%positive 100%positive eq_refl eq_refl eq_refl eq_refl eq_refl).
Defined.

(** A function in the place of the object. *)
Lemma createStructuredSelector_not_an_object_witness :
  createStructuredSelector allocate selectA createSelector 100%positive =
  (Abrupt
     (Error
        "createStructuredSelector expects first argument to be an object where each property is a selector, instead received a function"),
   100%positive).
Proof.
  refine (proj1 (createStructuredSelector_not_an_object allocate selectA createSelector
                   100%positive) _).
  discriminate.
Defined.

(** [null] is not an object, and [createStructuredSelector(null)] does not
    throw the error that names the type received: it ends in the
    [TypeError] of [Object.keys]. *)
Lemma createStructuredSelector_null_is_not_described :
  createStructuredSelector allocate VNull createSelector 100%positive =
  (Abrupt TypeError, 100%positive)
  /\
  forall message,
    createStructuredSelector allocate VNull createSelector 100%positive <>
    (Abrupt (Error message), 100%positive).
Proof. split; [reflexivity | intros message; discriminate]. Qed.



End Witnesses.

(** * Further properties of the library *)

(** ** The default comparator on one and the same list *)

(** The only value that [===] tells apart from itself. *)
Definition isNaN (v : value) : bool :=
  match v with
  | VNumber x => PrimFloat.is_nan x
  | _ => false
  end.

Lemma defaultEqualityCheck_self (v : value) :
  defaultEqualityCheck v v = negb (isNaN v).
Proof.
  unfold defaultEqualityCheck; destruct v; cbn; try reflexivity.
  - destruct b; reflexivity.
  - unfold PrimFloat.is_nan; rewrite Bool.negb_involutive; reflexivity.
  - apply String.eqb_refl.
  - apply Pos.eqb_refl.
  - apply Z.eqb_refl.
  - apply Pos.eqb_refl.
  - apply Pos.eqb_refl.
  - apply Pos.eqb_refl.
Qed.

Lemma item_In (xs : list value) (i : nat) : i < List.length xs -> In (item xs i) xs.
Proof. intros H; unfold item; apply nth_In; exact H. Qed.

(** X1.  Under the default comparator an argument list is shallowly equal to
    itself exactly when none of its elements is [NaN]; the empty list always
    is. *)
Theorem same_list_equal_unless_NaN (arguments : list value) :
  areArgumentsShallowlyEqual defaultEqualityCheck (Some arguments) (Some arguments) = true <->
  forall v, In v arguments -> isNaN v = false.
Proof.
  rewrite shallowEqual_true; split.
  - intros [_ H] v Hin.
    apply (In_nth _ _ VUndefined) in Hin; destruct Hin as (i & Hi & <-).
    specialize (H i Hi); unfold item in H.
    rewrite defaultEqualityCheck_self in H.
    destruct (isNaN (nth i arguments VUndefined)); [discriminate | reflexivity].
  - intros H; split; [reflexivity|]; intros i Hi.
    rewrite defaultEqualityCheck_self, (H _ (item_In _ _ Hi)); reflexivity.
Qed.

(** ** More on the single-slot memoizer *)

Section MemoizerHistory.

Context {S : Type}.
Variable equalityCheck : comparator.

(** The function computes [g] and leaves its state alone, and [g] does not
    tell apart argument lists the comparator holds equal. *)
Variable g : list value -> value.
Variable func : jsfun S.


Definition respects : Prop :=
  forall a b, areArgumentsShallowlyEqual equalityCheck (Some a) (Some b) = true -> g a = g b.

(** What the slot remembers is the value of [g] at the remembered
    arguments. *)
Definition coherent (cache : slot) : Prop :=
  forall a, lastArgs cache = Some a -> lastResult cache = g a.


End MemoizerHistory.



(** ** More on calling a selector *)

Section SelectorHistory.

Variable W : Type.
Variable userFunction : positive -> value -> jsfun W.
Variable allocate : W -> positive * W.
Variable equalityCheck : comparator.
Variable sel : selector (defaultMemoizer equalityCheck).

Local Abbreviation state := (selectorState W (defaultMemoizer equalityCheck)).
Local Abbreviation callSelector := (call userFunction allocate sel).

(** One call adds at most one recomputation and takes none away. *)
Lemma call_recomputations_step (arguments : list value) (st : state) :
  recomputations st <= recomputations (snd (callSelector arguments st)) <= S (recomputations st).
Proof.
  destruct st as (outer & inner & count & w); unfold recomputations at 1 4; cbn [fst snd].
  destruct (areArgumentsShallowlyEqual defaultEqualityCheck (lastArgs outer) (Some arguments))
    eqn:Eo.
  - rewrite call_outer_hit by exact Eo; cbn; lia.
  - rewrite call_outer_miss by exact Eo.
    destruct (extractParams userFunction allocate (dependencies sel) arguments w)
      as [[params|e] w']; [|cbn; lia].
    destruct (areArgumentsShallowlyEqual equalityCheck (lastArgs inner) (Some params));
      [cbn; lia|].
    destruct (Function_apply userFunction allocate (resultFunc sel) params w')
      as [[v|e] w'']; cbn; lia.
Qed.

(** A call never reads the counter: with another count to start from, it
    returns the same completion, remembers the same things and leaves the
    same world, and the two counts stay the same distance apart. *)
Lemma call_ignores_count (arguments : list value) (outer inner : slot) (count count' : nat)
    (w : W) :
  exists c outer1 inner1 increment w1,
    callSelector arguments (outer, (inner, (count, w))) =
    (c, (outer1, (inner1, (increment + count, w1))))
    /\ callSelector arguments (outer, (inner, (count', w))) =
       (c, (outer1, (inner1, (increment + count', w1)))).
Proof.
  destruct (areArgumentsShallowlyEqual defaultEqualityCheck (lastArgs outer) (Some arguments))
    eqn:Eo.
  - rewrite !call_outer_hit by exact Eo.
    eexists; eexists; eexists; exists 0; eexists; split; reflexivity.
  - rewrite !call_outer_miss by exact Eo.
    destruct (extractParams userFunction allocate (dependencies sel) arguments w)
      as [[params|e] w'].
    2:{ eexists; eexists; eexists; exists 0; eexists; split; reflexivity. }
    destruct (areArgumentsShallowlyEqual equalityCheck (lastArgs inner) (Some params)).
    { eexists; eexists; eexists; exists 0; eexists; split; reflexivity. }
    destruct (Function_apply userFunction allocate (resultFunc sel) params w')
      as [[v|e] w''];
      eexists; eexists; eexists; exists 1; eexists; split; reflexivity.
Qed.

Section Pure.

(** The dependencies compute [P] and the combining function computes [R],
    without effects. *)
Variable P : list value -> list value.
Variable R : list value -> value.

Definition dependenciesCompute : Prop :=
  forall arguments w,
    extractParams userFunction allocate (dependencies sel) arguments w = (Normal (P arguments), w).

Definition resultFuncComputes : Prop :=
  forall params w,
    Function_apply userFunction allocate (resultFunc sel) params w = (Normal (R params), w).

Lemma call_keeps_coherent (arguments : list value) (outer inner : slot) (count : nat) (w : W) :
  dependenciesCompute -> resultFuncComputes ->
  respects defaultEqualityCheck (fun a => R (P a)) ->
  respects equalityCheck R ->
  coherent (fun a => R (P a)) outer -> coherent R inner ->
  exists outer' inner' count',
    callSelector arguments (outer, (inner, (count, w))) =
    (Normal (R (P arguments)), (outer', (inner', (count', w))))
    /\ coherent (fun a => R (P a)) outer' /\ coherent R inner'.
Proof.
  intros Hd Hr Ho Hi Hco Hci.
  destruct (areArgumentsShallowlyEqual defaultEqualityCheck (lastArgs outer) (Some arguments))
    eqn:Eo.
  - rewrite call_outer_hit by exact Eo.
    destruct (lastArgs outer) as [a|] eqn:Ea; [|discriminate].
    rewrite (Hco a Ea), (Ho a arguments Eo).
    eexists; eexists; eexists; split; [reflexivity|]. split; [|exact Hci].
    intros b Hb; cbn in Hb; inversion Hb; subst; reflexivity.
  - rewrite call_outer_miss by exact Eo. rewrite Hd.
    destruct (areArgumentsShallowlyEqual equalityCheck (lastArgs inner) (Some (P arguments)))
      eqn:Ei.
    + destruct (lastArgs inner) as [p|] eqn:Ep; [|discriminate].
      rewrite (Hci p Ep), (Hi p (P arguments) Ei).
      eexists; eexists; eexists; split; [reflexivity|].
      split; intros b Hb; cbn in Hb; inversion Hb; subst; reflexivity.
    + rewrite Hr.
      eexists; eexists; eexists; split; [reflexivity|].
      split; intros b Hb; cbn in Hb; inversion Hb; subst; reflexivity.
Qed.

End Pure.

End SelectorHistory.

Arguments dependenciesCompute {W} userFunction allocate {equalityCheck} sel P.
Arguments resultFuncComputes {W} userFunction allocate {equalityCheck} sel R.

(** X4.  A selector is invisible when its functions have no effect, the
    combining function does justice to the inner comparator, and the same
    references always lead to the same result (the state is not changed in
    place): whatever calls are made, each returns the combining function's
    value at the dependencies' outputs, and the world is untouched. *)
Theorem selector_transparent {W : Type} (userFunction : positive -> value -> jsfun W)
    (allocate : W -> positive * W) (equalityCheck : comparator)
    (sel : selector (defaultMemoizer equalityCheck))
    (P : list value -> list value) (R : list value -> value)
    (argss : list (list value)) (w : W) :
  dependenciesCompute userFunction allocate sel P ->
  resultFuncComputes userFunction allocate sel R ->
  respects defaultEqualityCheck (fun a => R (P a)) ->
  respects equalityCheck R ->
  fst (callEach (call userFunction allocate sel) argss
         (created (defaultMemoizer equalityCheck) w)) =
  map (fun arguments => Normal (R (P arguments))) argss
  /\
  snd (snd (snd (snd (callEach (call userFunction allocate sel) argss
                       (created (defaultMemoizer equalityCheck) w))))) = w.
Proof.
  intros Hd Hr Ho Hi.
  assert (G : forall argss outer inner count,
             coherent (fun a => R (P a)) outer -> coherent R inner ->
             fst (callEach (call userFunction allocate sel) argss
                    (outer, (inner, (count, w)))) =
             map (fun arguments => Normal (R (P arguments))) argss
             /\ snd (snd (snd (snd (callEach (call userFunction allocate sel) argss
                                      (outer, (inner, (count, w))))))) = w).
  { clear argss; induction argss as [|a rest IH]; intros outer inner count Hco Hci;
      cbn [callEach map].
    - split; reflexivity.
    - destruct (call_keeps_coherent W userFunction allocate equalityCheck sel P R
                  a outer inner count w Hd Hr Ho Hi Hco Hci)
        as (outer' & inner' & count' & E & Hco' & Hci').
      rewrite E.
      destruct (IH outer' inner' count' Hco' Hci') as [IH1 IH2].
      destruct (callEach _ rest _) as [cs st']; cbn [fst snd] in *.
      split; [f_equal; exact IH1 | exact IH2]. }
  apply G; intros a Ha; discriminate.
Qed.

(** X5.  Over any calls, caught or not, [recomputations()] never goes down
    and goes up by at most one per call. *)
Theorem recomputations_bounds {W : Type} (userFunction : positive -> value -> jsfun W)
    (allocate : W -> positive * W) (equalityCheck : comparator)
    (sel : selector (defaultMemoizer equalityCheck)) (argss : list (list value))
    (st : selectorState W (defaultMemoizer equalityCheck)) :
  recomputations st <=
  recomputations (snd (callEach (call userFunction allocate sel) argss st)) <=
  recomputations st + List.length argss.
Proof.
  revert st; induction argss as [|a rest IH]; intros st; cbn [callEach List.length].
  - cbn; lia.
  - pose proof (call_recomputations_step W userFunction allocate equalityCheck sel a st) as H1.
    destruct (call userFunction allocate sel a st) as [c st1]; cbn [snd] in H1.
    specialize (IH st1).
    destruct (callEach _ rest st1) as [cs st2]; cbn [snd] in *.
    lia.
Qed.

(** X6.  [resetRecomputations()] returns 0 and touches nothing but the
    counter; and since no call reads the counter, the next call returns what
    it would have returned without the reset, remembers the same and leaves
    the same world, its count being lower by what was reset. *)
Theorem resetRecomputations_only_the_count {W : Type} (userFunction : positive -> value -> jsfun W)
    (allocate : W -> positive * W) (equalityCheck : comparator)
    (sel : selector (defaultMemoizer equalityCheck)) (arguments : list value)
    (outer inner : slot) (count : nat) (w : W) :
  resetRecomputations (memoize := defaultMemoizer equalityCheck) (outer, (inner, (count, w))) =
  (0, (outer, (inner, (0, w))))
  /\
  exists c outer1 inner1 increment w1,
    call userFunction allocate sel arguments (outer, (inner, (count, w))) =
    (c, (outer1, (inner1, (increment + count, w1))))
    /\ call userFunction allocate sel arguments (outer, (inner, (0, w))) =
       (c, (outer1, (inner1, (increment, w1))))
    /\ increment <= 1.
Proof.
  split; [reflexivity|].
  destruct (call_ignores_count W userFunction allocate equalityCheck sel arguments
              outer inner count 0 w) as (c & outer1 & inner1 & increment & w1 & E1 & E2).
  exists c, outer1, inner1, increment, w1.
  rewrite Nat.add_0_r in E2. split; [exact E1 | split; [exact E2|]].
  pose proof (call_recomputations_step W userFunction allocate equalityCheck sel arguments
                (outer, (inner, (0, w)))) as H.
  rewrite E2 in H; unfold recomputations in H; cbn in H; lia.
Qed.

(** ** Dependencies: order, failure, none at all *)

Section Dependencies.

Variable W : Type.
Variable userFunction : positive -> value -> jsfun W.
Variable allocate : W -> positive * W.

Lemma paramsLoop_tail (d v : value) (dependencies arguments : list value) (remaining : nat) :
  forall (i : nat) (params : list value) (w : W),
    paramsLoop userFunction allocate (d :: dependencies) arguments remaining (S i)
      (v :: params) w =
    match paramsLoop userFunction allocate dependencies arguments remaining i params w with
    | (Normal ps, w') => (Normal (v :: ps), w')
    | (Abrupt e, w') => (Abrupt e, w')
    end.
Proof.
  induction remaining as [|r IH]; intros i params w; cbn [paramsLoop]; [reflexivity|].
  change (item (d :: dependencies) (S i)) with (item dependencies i).
  destruct (Function_apply userFunction allocate (item dependencies i) arguments w)
    as [[x|e] w1]; [|reflexivity].
  change ((v :: params) ++ [x]) with (v :: (params ++ [x])).
  apply IH.
Qed.

(** The loop over indices applies the dependencies from left to right, each
    in the world the previous one left, and stops at the first that throws. *)
Lemma extractParams_cons (d : value) (dependencies arguments : list value) (w : W) :
  extractParams userFunction allocate (d :: dependencies) arguments w =
  match Function_apply userFunction allocate d arguments w with
  | (Normal v, w1) =>
      match extractParams userFunction allocate dependencies arguments w1 with
      | (Normal vs, w2) => (Normal (v :: vs), w2)
      | (Abrupt e, w2) => (Abrupt e, w2)
      end
  | (Abrupt e, w1) => (Abrupt e, w1)
  end.
Proof.
  unfold extractParams; cbn [List.length paramsLoop].
  change (item (d :: dependencies) 0) with d.
  destruct (Function_apply userFunction allocate d arguments w) as [[v|e] w1]; [|reflexivity].
  cbn [app]; apply paramsLoop_tail.
Qed.

Lemma extractParams_stops (before after : list value) (d : value) (arguments : list value) :
  forall (w w1 w2 : W) (params : list value) (e : thrown),
    extractParams userFunction allocate before arguments w = (Normal params, w1) ->
    Function_apply userFunction allocate d arguments w1 = (Abrupt e, w2) ->
    extractParams userFunction allocate (before ++ d :: after) arguments w = (Abrupt e, w2).
Proof.
  induction before as [|b before IH]; intros w w1 w2 params e Hb Hd; cbn [app].
  - cbn in Hb; inversion Hb; subst.
    rewrite extractParams_cons, Hd; reflexivity.
  - rewrite extractParams_cons in *.
    destruct (Function_apply userFunction allocate b arguments w) as [[v|e'] wb];
      [|discriminate].
    destruct (extractParams userFunction allocate before arguments wb)
      as [[vs|e'] wb'] eqn:E; [|discriminate].
    inversion Hb; subst.
    rewrite (IH _ _ _ _ _ E Hd); reflexivity.
Qed.

End Dependencies.

(** X7.  When a dependency throws, the call of the selector ends with that
    error in the world that dependency left: the dependencies after it and
    the combining function are not run, and the caches and the count are as
    before the call. *)
Theorem dependency_failure_stops_the_call {W : Type} (userFunction : positive -> value -> jsfun W)
    (allocate : W -> positive * W) (equalityCheck : comparator)
    (sel : selector (defaultMemoizer equalityCheck)) (before after : list value) (d : value)
    (arguments params : list value) (outer inner : slot) (count : nat) (w w1 w2 : W)
    (e : thrown) :
  dependencies sel = before ++ d :: after ->
  areArgumentsShallowlyEqual defaultEqualityCheck (lastArgs outer) (Some arguments) = false ->
  extractParams userFunction allocate before arguments w = (Normal params, w1) ->
  Function_apply userFunction allocate d arguments w1 = (Abrupt e, w2) ->
  call userFunction allocate sel arguments (outer, (inner, (count, w))) =
  (Abrupt e, (outer, (inner, (count, w2)))).
Proof.
  intros Hdeps Ho Hb Hd.
  rewrite call_outer_miss by exact Ho.
  rewrite Hdeps, (extractParams_stops W userFunction allocate before after d arguments
                    w w1 w2 params e Hb Hd).
  reflexivity.
Qed.

(** X8.  A selector without dependencies computes once: when its first call
    returns a value, every later call returns that value, whatever its
    arguments and whatever the inner comparator, and [recomputations()]
    stays at 1. *)
Theorem selector_without_dependencies_is_constant {W : Type}
    (userFunction : positive -> value -> jsfun W) (allocate : W -> positive * W)
    (equalityCheck : comparator) (sel : selector (defaultMemoizer equalityCheck))
    (arguments : list value) (w : W) (v : value)
    (st : selectorState W (defaultMemoizer equalityCheck)) (rest : list (list value)) :
  dependencies sel = [] ->
  call userFunction allocate sel arguments (created (defaultMemoizer equalityCheck) w) =
  (Normal v, st) ->
  exists st',
    callInSequence (call userFunction allocate sel) rest st =
    (Normal (repeat v (List.length rest)), st')
    /\ recomputations st' = 1.
Proof.
  intros Hdeps Hfirst.
  apply call_created in Hfirst; destruct Hfirst as (params & w' & w'' & Hx & _ & ->).
  rewrite Hdeps in Hx; cbn in Hx; inversion Hx; subst params w'; clear Hx.
  generalize (Some arguments) as remembered.
  generalize w'' as w1.
  induction rest as [|b rest IH]; intros w1 remembered; cbn [callInSequence List.length repeat].
  - eexists; split; reflexivity.
  - destruct (areArgumentsShallowlyEqual defaultEqualityCheck remembered (Some b)) eqn:Eo.
    + rewrite call_outer_hit by exact Eo; cbn [lastResult].
      destruct (IH w1 (Some b)) as (st' & E & Hc); rewrite E.
      eexists; split; [reflexivity | exact Hc].
    + rewrite call_outer_miss by exact Eo.
      rewrite Hdeps; cbn [extractParams List.length paramsLoop].
      cbn [lastArgs lastResult areArgumentsShallowlyEqual List.length Nat.eqb negb shallowLoop].
      destruct (IH w1 (Some b)) as (st' & E & Hc); rewrite E.
      eexists; split; [reflexivity | exact Hc].
Qed.

(** ** The two ways to pass the dependencies *)

(** X9.  [createSelector([f, g], h)] and [createSelector(f, g, h)] make the
    same selector when the dependencies are functions, under any strategy;
    and whatever stands between the array and the combining function is
    ignored. *)
Theorem array_and_variadic_forms_agree (memoize : memoizer) (id : positive)
    (dependencies ignored : list value) (resultFunc : value) :
  (forall dep, In dep dependencies -> typeof dep = "function") ->
  createSelectorCreator memoize (VArray id dependencies :: ignored ++ [resultFunc]) =
  Normal (mkSelector resultFunc dependencies)
  /\
  createSelectorCreator memoize (dependencies ++ [resultFunc]) =
  Normal (mkSelector resultFunc dependencies).
Proof.
  intros Hfun.
  assert (Hall : forallb isFunction dependencies = true).
  { apply forallb_forall; intros dep Hin; unfold isFunction.
    apply String.eqb_eq, Hfun, Hin. }
  split.
  - rewrite createSelectorCreator_valid.
    + change (VArray id dependencies :: ignored ++ [resultFunc])
        with ((VArray id dependencies :: ignored) ++ [resultFunc]).
      rewrite last_last, removelast_last; reflexivity.
    + change (VArray id dependencies :: ignored ++ [resultFunc])
        with ((VArray id dependencies :: ignored) ++ [resultFunc]).
      rewrite removelast_last; exact Hall.
  - assert (Hlist : dependencyList dependencies = dependencies).
    { destruct dependencies as [|d ds]; [reflexivity|].
      specialize (Hfun d (or_introl eq_refl)).
      destruct d; try reflexivity; discriminate. }
    rewrite createSelectorCreator_valid; rewrite removelast_last, ?last_last, Hlist;
      [reflexivity | exact Hall].
Qed.

(** ** More on structured selectors *)

(** As [reduceValues_in_order], with keys left over. *)
Lemma reduceValues_partial (suf : list (string * value)) :
  forall (pre : list (string * value)) (more : list string),
    enumerationOrder (map fst (pre ++ suf) ++ more) ->
    ~ In "__proto__" (map fst suf) ->
    reduceValues (map fst (pre ++ suf) ++ more) (map snd suf) (List.length pre) pre = pre ++ suf.
Proof.
  induction suf as [|[k v] suf IH]; intros pre more H Hproto; cbn [map reduceValues snd].
  - rewrite app_nil_r; reflexivity.
  - assert (Hk : nth (List.length pre) (map fst (pre ++ (k, v) :: suf) ++ more) "undefined" = k).
    { rewrite map_app, <- app_assoc, app_nth2 by (rewrite length_map; lia).
      rewrite length_map, Nat.sub_diag; reflexivity. }
    rewrite Hk, setProperty_last.
    + replace (pre ++ (k, v) :: suf) with ((pre ++ [(k, v)]) ++ suf) in *
        by (rewrite <- app_assoc; reflexivity).
      replace (S (List.length pre)) with (List.length (pre ++ [(k, v)]))
        by (rewrite length_app; cbn; lia).
      apply IH; [exact H | intros Hin; apply Hproto; right; exact Hin].
    + intros ->; apply Hproto; left; reflexivity.
    + unfold enumerationOrder in H; rewrite map_app, <- app_assoc in H; cbn [map fst app] in H.
      eapply ForallOrdPairs_app_last; exact H.
Qed.

Lemma combine_fst_firstn (keys : list string) (values : list value) :
  List.length values <= List.length keys ->
  map fst (combine keys values) = firstn (List.length values) keys.
Proof.
  revert values; induction keys as [|k ks IH]; intros [|v vs] H; cbn in *;
    try reflexivity; try lia.
  f_equal; apply IH; lia.
Qed.

Lemma combine_snd (keys : list string) (values : list value) :
  List.length values <= List.length keys ->
  map snd (combine keys values) = values.
Proof.
  revert values; induction keys as [|k ks IH]; intros [|v vs] H; cbn in *;
    try reflexivity; try lia.
  f_equal; apply IH; lia.
Qed.

(** X10.  The combining function of a structured selector, which
    [selector.resultFunc] exposes, called with no more values than there are
    keys, none of the keys being [__proto__]: it returns a new object that
    pairs the first keys with the values, in order (the empty object for no
    value), and does not look at the keys that are left. *)
Theorem structuredCombiner_pairs_keys_and_values {W : Type}
    (userFunction : positive -> value -> jsfun W) (allocate : W -> positive * W)
    (closureId : positive) (objectKeys : list string) (values : list value) (w : W) :
  enumerationOrder objectKeys ->
  ~ In "__proto__" objectKeys ->
  List.length values <= List.length objectKeys ->
  Function_apply userFunction allocate (VFunction (StructuredCombiner closureId objectKeys))
    values w =
  (Normal (VObject (fst (allocate w)) (combine objectKeys values)), snd (allocate w)).
Proof.
  intros Horder Hproto Hlen; cbn [Function_apply callFunction]; unfold structuredCombiner.
  destruct (allocate w) as [oid w']; cbn [fst snd].
  pose proof (reduceValues_partial (combine objectKeys values) []
                (skipn (List.length values) objectKeys)) as H.
  cbn [app List.length] in H.
  rewrite combine_fst_firstn, combine_snd, firstn_skipn in H by exact Hlen.
  rewrite H; [reflexivity | exact Horder |].
  intros Hin; apply Hproto.
  rewrite <- (firstn_skipn (List.length values) objectKeys).
  apply in_or_app; left; exact Hin.
Qed.

(** X11.  A property that is not a function makes [createStructuredSelector]
    throw, with any strategy behind the selector creator: the error is the
    one of the dependency check, and its message lists the [typeof] of every
    property value in the order of the keys. *)
Theorem createStructuredSelector_invalid_property {W : Type} (allocate : W -> positive * W)
    (memoize : memoizer) (id : positive) (selectors : list (string * value)) (w : W) :
  enumerationOrder (map fst selectors) ->
  (exists key v, In (key, v) selectors /\ typeof v <> "function") ->
  createStructuredSelector allocate (VObject id selectors) (createSelectorCreator memoize) w =
  (Abrupt
     (Error
        (String.append
           "Selector creators expect all input-selectors to be functions, instead received the following types: ["
           (String.append (join ", " (map (fun kv => typeof (snd kv)) selectors)) "]"))),
   snd (allocate (snd (allocate w)))).
Proof.
  intros Horder (key & v & Hin & Hv).
  unfold createStructuredSelector; cbn [typeof Object_keys].
  rewrite String.eqb_refl; cbn [negb].
  destruct (allocate w) as [arrayId wA]; cbn [snd].
  destruct (allocate wA) as [closureId wB]; cbn [snd].
  rewrite getProperty_each by exact Horder.
  unfold createSelectorCreator, pop, getDependencies; cbn [removelast last dependencyList].
  assert (Hbad : forallb isFunction (map snd selectors) = false).
  { apply forallb_isFunction_false; exists v; split; [|exact Hv].
    apply in_map_iff; exists (key, v); split; [reflexivity | exact Hin]. }
  rewrite Hbad; cbn [negb snd]. unfold dependencyError.
  rewrite map_map; reflexivity.
Qed.

(** ** An array in the place of the object *)

From Stdlib Require DecimalPos.

(** The decimal writing of a natural number does not depend on whether it
    is counted in unary or in binary. *)
Lemma N_to_uint_of_nat (i : nat) : N.to_uint (N.of_nat i) = Nat.to_uint i.
Proof.
  rewrite DecimalNat.Unsigned.to_uint_alt.
  assert (H : N.to_uint (N.of_nat i) =
              Decimal.rev (DecimalPos.Unsigned.to_lu (N.of_nat i)))
    by (destruct (N.of_nat i); reflexivity).
  rewrite H; f_equal; clear H.
  induction i as [|i IH]; [reflexivity|].
  rewrite Nat2N.inj_succ, DecimalPos.Unsigned.to_lu_succ, IH; reflexivity.
Qed.

(** The key of an element is an array index, and names its position. *)
Lemma arrayIndex_indexKey (i : nat) :
  (N.of_nat i < 4294967295)%N -> arrayIndex (indexKey i) = Some (N.of_nat i).
Proof.
  intros Hi; unfold arrayIndex, indexKey.
  rewrite NilEmpty.usu, <- N_to_uint_of_nat, DecimalN.Unsigned.of_to.
  rewrite String.eqb_refl; cbn [andb].
  apply N.ltb_lt in Hi; rewrite Hi; reflexivity.
Qed.

Lemma indexKeys_in_order (len : nat) :
  forall start,
    (N.of_nat (start + len) <= 4294967295)%N ->
    enumerationOrder (map indexKey (seq start len)).
Proof.
  induction len as [|len IH]; intros start Hb; cbn [seq map]; [constructor|].
  constructor.
  - apply Forall_forall; intros key Hin.
    apply in_map_iff in Hin; destruct Hin as (j & <- & Hj); apply in_seq in Hj.
    unfold keyBefore; rewrite !arrayIndex_indexKey by lia. lia.
  - apply IH; rewrite <- Nat.add_succ_comm in Hb; exact Hb.
Qed.

Lemma indexKeys_no_proto (start len : nat) :
  (N.of_nat (start + len) <= 4294967295)%N ->
  ~ In "__proto__" (map indexKey (seq start len)).
Proof.
  intros Hb Hin.
  apply in_map_iff in Hin; destruct Hin as (j & Hj & Hin); apply in_seq in Hin.
  assert (H : arrayIndex (indexKey j) = Some (N.of_nat j))
    by (apply arrayIndex_indexKey; lia).
  rewrite Hj in H; discriminate H.
Qed.

Lemma items_in_order (xs : list value) :
  map (fun i => item xs i) (seq 0 (List.length xs)) = xs.
Proof.
  induction xs as [|x xs IH]; cbn [List.length seq map]; [reflexivity|].
  f_equal. rewrite <- seq_shift, map_map. exact IH.
Qed.

Lemma getProperty_indexKeys (id : positive) (elements : list value) :
  (N.of_nat (List.length elements) <= 4294967295)%N ->
  map (fun key => getProperty (VArray id elements) key)
    (map indexKey (seq 0 (List.length elements))) = elements.
Proof.
  intros Hb; rewrite map_map.
  rewrite <- (items_in_order elements) at 2.
  apply map_ext_in; intros i Hi; apply in_seq in Hi.
  cbn [getProperty]; rewrite arrayIndex_indexKey by lia.
  rewrite Nat2N.id; reflexivity.
Qed.

(** X12.  An array of functions passes for an object ([typeof] says so): the
    structured selector built from it has the elements as dependencies, and
    its first call returns a plain object, not an array, that holds under
    the keys ["0"], ["1"], ... what each element returns for the arguments.
    (An array has at most [2^32 - 1] elements.) *)
Theorem createStructuredSelector_of_array {W : Type} (userFunction : positive -> value -> jsfun W)
    (allocate : W -> positive * W) (id : positive) (elements : list value) (w : W) :
  (N.of_nat (List.length elements) <= 4294967295)%N ->
  (forall f, In f elements -> typeof f = "function") ->
  exists sel,
    createStructuredSelector allocate (VArray id elements) createSelector w =
    (Normal sel, snd (allocate (snd (allocate w))))
    /\ dependencies sel = elements
    /\ forall (arguments : list value) (w0 w1 : W) (output : list (string * value)),
         selectedInTurn W userFunction allocate arguments
           (combine (map indexKey (seq 0 (List.length elements))) elements) w0 output w1 ->
         exists st,
           call userFunction allocate sel arguments
             (created (defaultMemoizer defaultEqualityCheck) w0) =
           (Normal (VObject (fst (allocate w1)) output), st).
Proof.
  intros Hb Hfun.
  set (keys := map indexKey (seq 0 (List.length elements))).
  assert (Hlen : List.length keys = List.length elements)
    by (unfold keys; rewrite length_map, length_seq; reflexivity).
  assert (Horder : enumerationOrder keys) by (apply indexKeys_in_order; exact Hb).
  unfold createStructuredSelector; cbn [typeof Object_keys].
  rewrite String.eqb_refl; cbn [negb].
  destruct (allocate w) as [arrayId wA]; cbn [snd].
  destruct (allocate wA) as [closureId wB]; cbn [snd].
  rewrite getProperty_indexKeys by exact Hb.
  unfold createSelector.
  rewrite createSelectorCreator_valid; cbn [removelast last dependencyList].
  2:{ apply forallb_forall; intros f Hin; unfold isFunction.
      apply String.eqb_eq, Hfun, Hin. }
  eexists; split; [reflexivity|]. split; [reflexivity|].
  intros arguments w0 w1 output Hsel.
  unfold created; cbn [memo_fresh defaultMemoizer].
  rewrite call_outer_miss by reflexivity.
  cbn [dependencies resultFunc].
  pose proof (extractParams_selectedInTurn W userFunction allocate _ _ _ _ _ Hsel) as Hx.
  rewrite combine_snd in Hx by lia.
  rewrite Hx.
  cbn [areArgumentsShallowlyEqual lastArgs emptySlot Function_apply callFunction].
  unfold structuredCombiner.
  destruct (allocate w1) as [oid w2]; cbn [fst].
  assert (Hkeys : map fst output = keys).
  { rewrite (selectedInTurn_keys W userFunction allocate _ _ _ _ _ Hsel).
    rewrite combine_fst_firstn by lia.
    rewrite <- Hlen; apply firstn_all. }
  fold keys.
  assert (Hred : reduceValues keys (map snd output) 0 [] = output).
  { rewrite <- Hkeys.
    apply (reduceValues_in_order output []).
    - cbn [app]; rewrite Hkeys; exact Horder.
    - rewrite Hkeys; apply indexKeys_no_proto; exact Hb. }
  rewrite Hred.
  eexists; reflexivity.
Qed.

(** ** When the combining function runs *)

(** X13.  A call of a selector adds one to [recomputations()] exactly when
    the arguments are not the remembered references, every dependency
    returns, and the extracted parameters are not what the inner layer
    remembers; in every other case the count is unchanged. *)
Theorem recomputation_exactly_when {W : Type} (userFunction : positive -> value -> jsfun W)
    (allocate : W -> positive * W) (equalityCheck : comparator)
    (sel : selector (defaultMemoizer equalityCheck)) (arguments : list value)
    (outer inner : slot) (count : nat) (w : W) :
  (recomputations
     (snd (call userFunction allocate sel arguments (outer, (inner, (count, w))))) = S count
   <->
   areArgumentsShallowlyEqual defaultEqualityCheck (lastArgs outer) (Some arguments) = false
   /\ exists params w',
        extractParams userFunction allocate (dependencies sel) arguments w = (Normal params, w')
        /\ areArgumentsShallowlyEqual equalityCheck (lastArgs inner) (Some params) = false)
  /\
  (recomputations
     (snd (call userFunction allocate sel arguments (outer, (inner, (count, w))))) = S count
   \/
   recomputations
     (snd (call userFunction allocate sel arguments (outer, (inner, (count, w))))) = count).
Proof.
  destruct (areArgumentsShallowlyEqual defaultEqualityCheck (lastArgs outer) (Some arguments))
    eqn:Eo.
  - rewrite call_outer_hit by exact Eo; unfold recomputations; cbn [fst snd].
    split; [split; [lia | intros [H _]; discriminate] | right; reflexivity].
  - rewrite call_outer_miss by exact Eo.
    destruct (extractParams userFunction allocate (dependencies sel) arguments w)
      as [[params|e] w'] eqn:Ex.
    2:{ unfold recomputations; cbn [fst snd].
        split; [split; [lia | intros (_ & p & w1 & H & _); discriminate] | right; reflexivity]. }
    destruct (areArgumentsShallowlyEqual equalityCheck (lastArgs inner) (Some params)) eqn:Ei.
    + unfold recomputations; cbn [fst snd].
      split; [split; [lia|] | right; reflexivity].
      intros (_ & p & w1 & H & Hp); inversion H; subst; congruence.
    + destruct (Function_apply userFunction allocate (resultFunc sel) params w')
        as [[v|e] w'']; unfold recomputations; cbn [fst snd];
        (split; [split; [intros _; split; [reflexivity | exists params, w'; split; [reflexivity | exact Ei]]
                       | reflexivity]
                | left; reflexivity]).
Qed.

(** [===] holds only between values of one type. *)
Lemma strictEquals_typeof (a b : value) : strictEquals a b = true -> typeof a = typeof b.
Proof. destruct a, b; cbn; intros H; try reflexivity; discriminate. Qed.

(** ** A chain of hits *)




(** * Instances of the further properties *)

Module Instances.

(** Three functions without effects: the [typeof] of the first argument as a
    string, the first argument itself, and one that throws. *)
Definition kindOf : value := VFunction (UserFunction 1).
Definition first : value := VFunction (UserFunction 2).
Definition thrower : value := VFunction (UserFunction 3).

Definition kind (arguments : list value) : value := VString (typeof (item arguments 0)).

Definition functions (id : positive) (this : value) : jsfun unit :=
  fun arguments w =>
    match id with
    | 1%positive => (Normal (kind arguments), w)
    | 2%positive => (Normal (item arguments 0), w)
    | _ => (Abrupt (Raised (VString "boom")), w)
    end.

Definition allocate (w : unit) : positive * unit := (7%positive, w).

Definition one : value := VNumber 1%float.
Definition two : value := VNumber 2%float.
Definition three : value := VNumber 3%float.
Definition four : value := VNumber 4%float.

(** The selector [createSelector(x => x, kindOf)]. *)
Definition kindSelector : selector (defaultMemoizer defaultEqualityCheck) :=
  mkSelector kindOf [first].

Lemma kind_respects : respects defaultEqualityCheck kind.
Proof.
  intros a b H; apply shallowEqual_true in H; destruct H as [Hl Hc].
  unfold kind; f_equal.
  destruct a as [|x a]; destruct b as [|y b]; try discriminate; [reflexivity|].
  apply strictEquals_typeof, (Hc 0); cbn; lia.
Defined.



(** The kind selector on a number, on the same number and on [null]. *)
Lemma selector_transparent_witness :
  fst (callEach (call functions allocate kindSelector) [[one]; [one]; [VNull]]
         (created (defaultMemoizer defaultEqualityCheck) tt)) =
  [Normal (VString "number"); Normal (VString "number"); Normal (VString "object")].
Proof.
  refine (proj1 (selector_transparent functions allocate defaultEqualityCheck kindSelector
                   (fun a => [item a 0]) kind [[one]; [one]; [VNull]] tt _ _ _ kind_respects)).
  - intros arguments w; reflexivity.
  - intros params w; reflexivity.
  - intros a b H; apply (kind_respects a b H).
Defined.

(** The second of three dependencies throws. *)
Lemma dependency_failure_stops_the_call_witness :
  call functions allocate
    (mkSelector (memoize := defaultMemoizer defaultEqualityCheck) kindOf [first; thrower; first])
    [one] (created (defaultMemoizer defaultEqualityCheck) tt) =
  (Abrupt (Raised (VString "boom")), (emptySlot, (emptySlot, (0, tt)))).
Proof.
  exact (dependency_failure_stops_the_call functions allocate defaultEqualityCheck
           (mkSelector kindOf [first; thrower; first]) [first] [first] thrower
           [one] [one] emptySlot emptySlot 0 tt tt tt (Raised (VString "boom"))
           eq_refl eq_refl eq_refl eq_refl).
Defined.

(** [createSelector(kindOf)]: the first call sees no parameter at all. *)
Lemma selector_without_dependencies_is_constant_witness :
  exists st',
    callInSequence
      (call functions allocate
         (mkSelector (memoize := defaultMemoizer defaultEqualityCheck) kindOf []))
      [[two]; [one; two]]
      ({| lastArgs := Some [one]; lastResult := VString "undefined" |},
       ({| lastArgs := Some []; lastResult := VString "undefined" |}, (1, tt))) =
    (Normal [VString "undefined"; VString "undefined"], st')
    /\ recomputations st' = 1.
Proof.
  exact (selector_without_dependencies_is_constant functions allocate defaultEqualityCheck
           (mkSelector kindOf []) [one] tt (VString "undefined") _ [[two]; [one; two]]
           eq_refl eq_refl).
Defined.

(** The sum selector, created in the two ways. *)
Lemma array_and_variadic_forms_agree_witness :
  createSelector [VArray 5 [Demo.selectA; Demo.selectB]; one; Demo.add] = Normal Demo.sum
  /\ createSelector [Demo.selectA; Demo.selectB; Demo.add] = Normal Demo.sum.
Proof.
  refine (array_and_variadic_forms_agree (defaultMemoizer defaultEqualityCheck) 5
            [Demo.selectA; Demo.selectB] [one] Demo.add _).
  intros dep [<- | [<- | []]]; reflexivity.
Defined.

Lemma order_xyz : enumerationOrder ["x"; "y"; "z"].
Proof. repeat constructor; discriminate. Defined.

(** Two values for the keys [x], [y], [z]. *)
Lemma structuredCombiner_pairs_keys_and_values_witness :
  Function_apply functions allocate (VFunction (StructuredCombiner 9 ["x"; "y"; "z"]))
    [one; two] tt =
  (Normal (VObject 7 [("x", one); ("y", two)]), tt).
Proof.
  refine (structuredCombiner_pairs_keys_and_values functions allocate 9 ["x"; "y"; "z"]
            [one; two] tt order_xyz _ _).
  - intros [H | [H | [H | []]]]; discriminate.
  - cbn; lia.
Defined.

(** [createStructuredSelector({a: f, c: 'd'})] *)
Lemma createStructuredSelector_invalid_property_witness :
  createStructuredSelector Demo.allocate
    (VObject 20 [("a", Demo.selectA); ("c", VString "d")]) createSelector 100%positive =
  (Abrupt
     (Error
        "Selector creators expect all input-selectors to be functions, instead received the following types: [function, string]"),
   102%positive).
Proof.
  refine (createStructuredSelector_invalid_property Demo.allocate
            (defaultMemoizer defaultEqualityCheck) 20
            [("a", Demo.selectA); ("c", VString "d")] 100%positive _ _).
  - repeat constructor; discriminate.
  - exists "c", (VString "d"); split; [right; left; reflexivity | discriminate].
Defined.

(** [createStructuredSelector([s => s.a, s => s.b])] on [{a: 1, b: 2}]. *)
Lemma createStructuredSelector_of_array_witness :
  exists sel,
    createStructuredSelector Demo.allocate (VArray 20 [Demo.selectA; Demo.selectB])
      createSelector 100%positive = (Normal sel, 102%positive)
    /\ exists st,
         call Demo.userFunction Demo.allocate sel [Demo.state1]
           (created (defaultMemoizer defaultEqualityCheck) 200%positive) =
         (Normal (VObject 200 [("0", one); ("1", two)]), st).
Proof.
  assert (Hb : (N.of_nat (List.length [Demo.selectA; Demo.selectB]) <= 4294967295)%N)
    by (cbn; lia).
  assert (Hfun : forall f, In f [Demo.selectA; Demo.selectB] -> typeof f = "function").
  { intros f [<- | [<- | []]]; reflexivity. }
  destruct (createStructuredSelector_of_array Demo.userFunction Demo.allocate 20
              [Demo.selectA; Demo.selectB] 100%positive Hb Hfun)
    as (sel & Hcreated & _ & Hcall).
  exists sel; split; [exact Hcreated|].
  destruct (Hcall [Demo.state1] 200%positive 200%positive [("0", one); ("1", two)])
    as (st & Hr).
  - eapply selected_cons; [reflexivity|].
    eapply selected_cons; [reflexivity|].
    apply selected_nil.
  - exists st; exact Hr.
Defined.



(** An object whose [apply] is a function in the place of the combining
    function, [createSelector(x => x, {apply: x => typeof x})]: it is not
    callable, the selector is created, and calling it raises no error: the
    [apply] of the object is called with [null] and the [arguments] object,
    and answers ["object"]. *)
Lemma combiner_with_apply_is_called :
  typeof (VObject 30 [("apply", kindOf)]) <> "function"
  /\ createSelector [first; VObject 30 [("apply", kindOf)]] =
     Normal (mkSelector (VObject 30 [("apply", kindOf)]) [first])
  /\ call functions allocate
       (mkSelector (memoize := defaultMemoizer defaultEqualityCheck)
          (VObject 30 [("apply", kindOf)]) [first])
       [one] (created (defaultMemoizer defaultEqualityCheck) tt) =
     (Normal (VString "object"),
      ({| lastArgs := Some [one]; lastResult := VString "object" |},
       ({| lastArgs := Some [one]; lastResult := VString "object" |}, (1, tt)))).
Proof. split; [discriminate | split; reflexivity]. Qed.

End Instances.
